(** * dbt Cloud webhook -> Datadog forwarder: model and verified properties

    A shallow embedding of [src/app.py] and [src/client.py]:
    the run-scoped extractor [get_run_metadata], the batcher [chunker],
    the paginating [DiscoveryApiClient] and the [webhook_handler]
    orchestrator, followed by the theorems about them. *)

From Stdlib Require Import ZArith String Ascii List Lia.
From Stdlib Require Import Floats.SpecFloat.
From stdpp Require Import gmap strings list fin_maps.

Set Warnings "-register-all".
Local Open Scope string_scope.
Local Open Scope list_scope.
Local Open Scope nat_scope.

(** ** Python values

    Everything the program touches came out of a JSON document
    ([request.json()], [response.json()]), so Python objects are JSON
    values.  Integers are unbounded ([Z]); floats are IEEE-754 doubles in
    their specification form; a [dict] with string keys is a finite map.
    A string is the UTF-8 encoding of a Python [str]; what the runtime
    does with its characters ([str.lower], [int()], iteration) is a
    parameter of the model, see [world]. *)

Inductive json : Type :=
  | JNull
  | JBool (b : bool)
  | JInt (z : Z)
  | JFloat (f : spec_float)
  | JStr (s : string)
  | JList (l : list json)
  | JDict (d : gmap string json).

(** Exceptions the modelled code can raise. *)
Inductive exn : Type :=
  | KeyError (key : string)
  | AttributeError (type_name attr : string)
  | TypeError (msg : string)
  | ValueError (msg : string)
  | OverflowError (msg : string)
  | UnicodeEncodeError (msg : string)
  | JSONDecodeError
  | HTTPError (status : Z)
  | ApiException (status : Z)
  | HTTPException (status : Z) (detail : string).

(** A Python computation either returns a value or raises. *)
Inductive result (A : Type) : Type :=
  | Ok (a : A)
  | Raise (e : exn).
Arguments Ok {A} a.
Arguments Raise {A} e.

#[global] Instance result_ret : MRet result := fun _ a => Ok a.
#[global] Instance result_bind : MBind result := fun _ _ f m =>
  match m with
  | Ok a => f a
  | Raise e => Raise e
  end.

Definition is_ok {A} (r : result A) : bool :=
  match r with Ok _ => true | Raise _ => false end.

(** ** The outside world

    One webhook invocation talks to the process environment, to the
    metadata API through [requests.post], and to the log-ingestion client.
    The collaborators are parameters of the model; each call to them
    gets an answer, so a connection that fails outright is not part of
    it. *)

Record http_request : Type := {
  rq_url : string;
  rq_json : json;
  rq_headers : list (string * string);
}.

(** What [requests.post] hands back: the status line and what
    [response.json()] makes of the body ([None]: not a JSON document). *)
Record http_response : Type := {
  status_code : Z;
  rs_json : option json;
}.

Record HTTPLogItem : Type := {
  ddsource : string;
  ddtags : string;
  hostname : string;
  message : string;
  service : string;
}.

Record world : Type := {
  (** [os.environ] *)
  env : gmap string string;
  (** answer of the metadata API to the [n]-th POST of the invocation *)
  api : nat → http_request → http_response;
  (** outcome of the [n]-th [LogsApi.submit_log] call *)
  datadog : nat → list HTTPLogItem → result json;
  (** [s.lower()] for a non-empty [str] s: Unicode case mapping *)
  str_lower : string → string;
  (** [int(s)] for a [str] s *)
  int_of_str : string → result Z;
  (** the one-character strings a [str] iterates over *)
  iter_str : string → list string;
  (** the keys a [dict] iterates over, in insertion order *)
  iter_dict : gmap string json → list string;
  (** [str(v)], as used by [str.format] *)
  py_str : json → string;
  (** [json.dumps(v)] *)
  json_dumps : json → string;
  (** [hmac.new(secret.encode(), body, hashlib.sha256).hexdigest()];
      it raises when the secret cannot be encoded *)
  hmac_sha256_hexdigest : string → string → result string;
}.

Module Py.

(** [type(v).__name__] *)
Definition type_name (v : json) : string :=
  match v with
  | JNull => "NoneType"
  | JBool _ => "bool"
  | JInt _ => "int"
  | JFloat _ => "float"
  | JStr _ => "str"
  | JList _ => "list"
  | JDict _ => "dict"
  end.

(** [bool(v)] *)
Definition truthy (v : json) : bool :=
  match v with
  | JNull => false
  | JBool b => b
  | JInt z => negb (z =? 0)%Z
  | JFloat (S754_zero _) => false
  | JFloat _ => true
  | JStr s => negb (String.eqb s "")
  | JList l => negb (Nat.eqb (length l) 0)
  | JDict d => negb (Nat.eqb (size d) 0)
  end.

(** [v == n] for an [int] n.  [bool] is a subclass of [int]; a float is
    compared with an integer by exact value; every other JSON type is
    unequal to every integer. *)
Definition eq_int (v : json) (n : Z) : bool :=
  match v with
  | JInt z => (z =? n)%Z
  | JBool b => ((if b then 1 else 0) =? n)%Z
  | JFloat (S754_zero _) => (n =? 0)%Z
  | JFloat (S754_finite s m e) =>
      let sm := (if s then - Z.pos m else Z.pos m)%Z in
      if (0 <=? e)%Z then (sm * 2 ^ e =? n)%Z
      else (sm =? n * 2 ^ (- e))%Z
  | _ => false
  end.

(** [v[k]] for a string key [k] *)
Definition getitem (v : json) (k : string) : result json :=
  match v with
  | JDict d =>
      match d !! k with
      | Some x => Ok x
      | None => Raise (KeyError k)
      end
  | JList _ => Raise (TypeError "list indices must be integers or slices, not str")
  | JStr _ => Raise (TypeError "string indices must be integers, not 'str'")
  | _ => Raise (TypeError ("'" +:+ type_name v +:+ "' object is not subscriptable"))
  end.

(** [v.get(k, dflt)]: only [dict] has the method. *)
Definition get (v : json) (k : string) (dflt : json) : result json :=
  match v with
  | JDict d => Ok (default dflt (d !! k))
  | _ => Raise (AttributeError (type_name v) "get")
  end.

(** [v.items()] *)
Definition items (v : json) : result (gmap string json) :=
  match v with
  | JDict d => Ok d
  | _ => Raise (AttributeError (type_name v) "items")
  end.

(** [s.lower()]: the empty string is its own lower case, any other
    string is mapped by the runtime. *)
Definition lower_str (w : world) (s : string) : string :=
  match s with
  | EmptyString => EmptyString
  | _ => str_lower w s
  end.

(** [v.lower()]: only [str] has the method. *)
Definition lower (w : world) (v : json) : result string :=
  match v with
  | JStr s => Ok (lower_str w s)
  | _ => Raise (AttributeError (type_name v) "lower")
  end.

(** [s.isascii()] *)
Definition is_ascii (s : string) : bool :=
  forallb (λ c, (N_of_ascii c <? 128)%N) (list_ascii_of_string s).

(** [hmac.compare_digest(a, b)] on two [str]: it refuses strings with a
    character outside ASCII. *)
Definition compare_digest (a b : string) : result bool :=
  if (is_ascii a && is_ascii b)%bool then Ok (String.eqb a b)
  else Raise (TypeError
                "comparing strings with non-ASCII characters is not supported").

End Py.

Arguments Py.lower_str : simpl never.

(** ** [src/app.py]: the run-scoped extractor *)

Definition NODE_TYPES : list string := ["Model"; "Seed"; "Snapshot"; "Test"].
Definition DATADOG_MAX_LIST_SIZE : nat := 1000.

(** The inner function of [get_run_metadata].  [in_run] is only ever
    tested by [if], so the value of the [and] chain is kept as its truth
    value; [execution_info_key] is [None] or a string. *)
Definition get_execution_info (w : world) (run_id : Z) (node : json)
    : result (bool * option string) :=
  rt ← Py.get node "resourceType" (JStr "");
  resource_type ← Py.lower w rt;
  let execution_info_key :=
    if Py.truthy (JStr resource_type)
    then Some (resource_type +:+ "ExecutionInfo") else None in
  in_run ← match execution_info_key with
           | None => Ok false
           | Some key =>
               info ← Py.get node key JNull;
               if Py.truthy info then
                 info' ← Py.get node key JNull;
                 last ← Py.get info' "lastRunId" JNull;
                 Ok (Py.eq_int last run_id)
               else Ok false
           end;
  Ok (in_run, execution_info_key).

(** [{**{k: v for k, v in d.items() if k != key}, "executionInfo": x}] *)
Definition normalized_node (d : gmap string json) (key : option string)
    (x : json) : gmap string json :=
  <["executionInfo" := x]> (filter (λ kv, Some kv.1 ≠ key) d).

(** [edge["node"][execution_info_key]] *)
Definition getitem_opt (v : json) (key : option string) : result json :=
  match key with
  | Some k => Py.getitem v k
  | None =>
      match v with
      | JDict _ => Raise (KeyError "None")
      | _ => Py.getitem v ""
      end
  end.

(** Body of the [for edge in edges] loop: [Some node] when a record is
    appended to [all_nodes], [None] when the edge is passed over. *)
Definition extract_edge (w : world) (run_id : Z) (edge : json)
    : result (option json) :=
  node ← Py.getitem edge "node";
  '(in_run, execution_info_key) ← get_execution_info w run_id node;
  if (in_run : bool) then
    d ← Py.items node;
    x ← getitem_opt node execution_info_key;
    Ok (Some (JDict (normalized_node d execution_info_key x)))
  else Ok None.

Fixpoint get_run_metadata_loop (w : world) (run_id : Z)
    (edges all_nodes : list json) : result (list json) :=
  match edges with
  | [] => Ok all_nodes
  | edge :: rest =>
      r ← extract_edge w run_id edge;
      match r with
      | Some node => get_run_metadata_loop w run_id rest (all_nodes ++ [node])
      | None => get_run_metadata_loop w run_id rest all_nodes
      end
  end.

Definition get_run_metadata (w : world) (edges : list json) (run_id : Z)
    : result (list json) :=
  get_run_metadata_loop w run_id edges [].

(** ** [src/app.py]: the batcher *)

(** [range(pos, stop, step)] for a positive [step]; [fuel] bounds the
    number of elements, and [stop] of them always suffice. *)
Fixpoint range_from (fuel pos stop step : nat) : list nat :=
  match fuel with
  | O => []
  | S fuel' =>
      if (pos <? stop)%nat then pos :: range_from fuel' (pos + step) stop step
      else []
  end.

Definition py_range (stop step : nat) : list nat :=
  range_from stop 0 stop step.

(** [seq[lo:hi]] for [0 <= lo <= hi] *)
Definition slice {A} (seq : list A) (lo hi : nat) : list A :=
  take (hi - lo) (drop lo seq).

Definition chunker_sized {A} (size : nat) (seq : list A) : list (list A) :=
  (λ pos, slice seq pos (pos + size)) <$> py_range (length seq) size.

(** The generator is consumed once, front to back, by the caller's
    [for] loop, so it is modelled by the list of the batches it yields. *)
Definition chunker {A} (seq : list A) : list (list A) :=
  let size := DATADOG_MAX_LIST_SIZE in
  chunker_sized size seq.

(** ** Python built-ins used by the orchestrator *)

Module PyInt.

(** [int(v)]: numbers are converted here, a [str] by the runtime. *)
Definition int (w : world) (v : json) : result Z :=
  match v with
  | JInt z => Ok z
  | JBool b => Ok (if b then 1 else 0)%Z
  | JFloat (S754_zero _) => Ok 0%Z
  | JFloat (S754_finite s m e) =>
      let a := (if (0 <=? e)%Z then Z.pos m * 2 ^ e
                else Z.pos m / 2 ^ (- e))%Z in
      Ok (if s then - a else a)%Z
  | JFloat (S754_infinity _) =>
      Raise (OverflowError "cannot convert float infinity to integer")
  | JFloat S754_nan =>
      Raise (ValueError "cannot convert float NaN to integer")
  | JStr s => int_of_str w s
  | _ =>
      Raise (TypeError ("int() argument must be a string, a bytes-like object or a real number, not '"
                        +:+ Py.type_name v +:+ "'"))
  end.

End PyInt.

(** ** State and effects *)

Inductive log_record : Type :=
  | LogPayload (payload : json)
  | LogQuerying (after_cursor : json)
  | LogSubmission (response : json)
  | LogErrorRunMetadata (e : exn).

(** Observable actions of one invocation, in the order they happen. *)
Inductive event : Type :=
  | EvPost (rq : http_request) (rs : http_response)
  | EvSubmit (body : list HTTPLogItem) (rs : result json)
  | EvLog (r : log_record).

(** Mutable dictionaries live in a store and are passed by reference, so
    that an update made by a callee is seen by the caller. *)
Definition loc := nat.

Record state : Type := {
  trace : list event;
  heap : list (gmap string json);
}.

Definition initial_state : state := {| trace := []; heap := [] |}.

Definition posts_of (tr : list event) : list (http_request * http_response) :=
  omap (λ ev, match ev with EvPost rq rs => Some (rq, rs) | _ => None end) tr.

Definition submits_of (tr : list event) : list (list HTTPLogItem) :=
  omap (λ ev, match ev with EvSubmit b _ => Some b | _ => None end) tr.

(** An effectful computation runs from a state to an outcome and a new
    state.  The outcome [None] stands for a run that is still inside the
    [while True] loop when its fuel is used up; the state reached so far
    is kept, so that what an unfinished run has done can be inspected. *)
Definition M (A : Type) : Type := state → option (result A) * state.

#[global] Instance M_ret : MRet M := λ _ a st, (Some (Ok a), st).
#[global] Instance M_bind : MBind M := λ _ _ f m st,
  match m st with
  | (Some (Ok a), st') => f a st'
  | (Some (Raise e), st') => (Some (Raise e), st')
  | (None, st') => (None, st')
  end.

Definition lift {A} (r : result A) : M A := λ st, (Some r, st).
Definition raise {A} (e : exn) : M A := lift (Raise e).
Definition emit (ev : event) : M unit := λ st,
  (Some (Ok tt), {| trace := trace st ++ [ev]; heap := heap st |}).
Definition diverge {A} : M A := λ st, (None, st).

(** [try: m] followed by [except Exception as e: h e] *)
Definition try_except {A} (m : M A) (h : exn → M A) : M A := λ st,
  match m st with
  | (Some (Raise e), st') => h e st'
  | other => other
  end.

(** Allocation of a fresh dictionary object. *)
Definition alloc (d : gmap string json) : M loc := λ st,
  (Some (Ok (length (heap st))),
   {| trace := trace st; heap := heap st ++ [d] |}).

(** The current content of the object at [l]. *)
Definition deref (l : loc) : M (gmap string json) := λ st,
  (Some (Ok (default ∅ (heap st !! l))), st).

(** [d.update(upd)] on the object at [l]: keys of [upd] win. *)
Definition dict_update (l : loc) (upd : gmap string json) : M unit := λ st,
  (Some (Ok tt),
   {| trace := trace st;
      heap := <[l := upd ∪ default ∅ (heap st !! l)]> (heap st) |}).

(** ** [src/client.py] *)

Record DiscoveryApiClient : Type := {
  environment_id : json;
  token : string;
  url : string;
}.

Definition DEFAULT_URL : string := "https://metadata.cloud.getdbt.com/graphql".

Section Client.
Context (w : world).

(** [requests.post(url, json=..., headers=...)] *)
Definition requests_post (u : string) (j : json)
    (hs : list (string * string)) : M http_response := λ st,
  let rq := {| rq_url := u; rq_json := j; rq_headers := hs |} in
  let rs := api w (length (posts_of (trace st))) rq in
  (Some (Ok rs), {| trace := trace st ++ [EvPost rq rs]; heap := heap st |}).

(** [Response.ok]: the status is not a 4xx or 5xx one. *)
Definition ok (rs : http_response) : bool :=
  negb ((400 <=? status_code rs)%Z && (status_code rs <? 600)%Z).

Definition raise_for_status (rs : http_response) : result unit :=
  if ok rs then Ok tt else Raise (HTTPError (status_code rs)).

Definition response_json (rs : http_response) : result json :=
  match rs_json rs with
  | Some j => Ok j
  | None => Raise JSONDecodeError
  end.

(** [DiscoveryApiClient.__init__] *)
Definition DiscoveryApiClient_init (environment_id : json)
    : M DiscoveryApiClient :=
  let token := env w !! "DBT_CLOUD_SERVICE_TOKEN" in
  let url := default DEFAULT_URL (env w !! "DBT_CLOUD_METADATA_URL") in
  match token with
  | None => raise (ValueError "DBT_CLOUD_SERVICE_TOKEN is not set")
  | Some t => mret {| environment_id := environment_id; token := t; url := url |}
  end.

Definition _run_query_with_cursor (self : DiscoveryApiClient)
    (query : string) (variables : option loc) (after_cursor : json)
    (limit : Z) : M json :=
  let headers := [("Authorization", "Bearer " +:+ token self);
                  ("content-type", "application/json")] in
  variables ← match variables with
              | None => alloc ∅
              | Some l => mret l
              end;
  dict_update variables
    (<["environmentId" := environment_id self]>
       (<["limit" := JInt limit]>
          (<["after" := after_cursor]>
             (<["first" := JInt limit]> ∅))));;
  vars ← deref variables;
  let json_data : gmap string json :=
    <["query" := JStr query]> (<["variables" := JDict vars]> ∅) in
  emit (EvLog (LogQuerying after_cursor));;
  response ← requests_post (url self) (JDict json_data) headers;
  lift (raise_for_status response);;
  lift (response_json response).

Definition resources_of (api_response : json) : result json :=
  d ← Py.getitem api_response "data";
  e ← Py.getitem d "environment";
  a ← Py.getitem e "applied";
  Py.getitem a "resources".

Definition _get_next_page_cursor (api_response : json) : result json :=
  resources ← resources_of api_response;
  page ← Py.getitem resources "pageInfo";
  has_next ← Py.get page "hasNextPage" (JBool false);
  if Py.truthy has_next then Py.getitem page "endCursor"
  else Ok JNull.

Definition _extract_query_results (api_response : json) : result json :=
  resources ← resources_of api_response;
  Py.getitem resources "edges".

(** What [list.extend(v)] appends: the elements [v] iterates over.  A
    string yields its characters and a dict its keys, as the runtime
    lists them. *)
Definition iterate (v : json) : result (list json) :=
  match v with
  | JList l => Ok l
  | JStr s => Ok (JStr <$> iter_str w s)
  | JDict d => Ok (JStr <$> iter_dict w d)
  | _ => Raise (TypeError ("'" +:+ Py.type_name v +:+ "' object is not iterable"))
  end.

(** The [while True] loop of [run_query]; one unit of fuel per turn. *)
Fixpoint run_query_loop (fuel : nat) (self : DiscoveryApiClient)
    (query : string) (variables : option loc) (limit : Z)
    (cursor : json) (all_results : list json) (page : Z)
    : M (list json) :=
  match fuel with
  | O => diverge
  | S fuel' =>
      api_response ← _run_query_with_cursor self query variables cursor limit;
      cursor ← lift (_get_next_page_cursor api_response);
      results ← lift (_extract_query_results api_response);
      more ← lift (iterate results);
      let all_results := all_results ++ more in
      let page := (page + 1)%Z in
      if negb (Py.truthy cursor) then mret all_results
      else run_query_loop fuel' self query variables limit cursor
             all_results page
  end.

Definition run_query (fuel : nat) (self : DiscoveryApiClient)
    (query : string) (variables : option loc) (limit : Z)
    : M (list json) :=
  run_query_loop fuel self query variables limit JNull [] 0.

End Client.

(** ** [src/app.py]: the orchestrator *)

Inductive WebhookEventType : Type := ERROR | COMPLETED | STARTED.

(** [member.value] *)
Definition WebhookEventType_value (m : WebhookEventType) : string :=
  match m with
  | ERROR => "job.run.errored"
  | COMPLETED => "job.run.completed"
  | STARTED => "job.run.started"
  end.

Definition WebhookEventType_eqb (a b : WebhookEventType) : bool :=
  match a, b with
  | ERROR, ERROR | COMPLETED, COMPLETED | STARTED, STARTED => true
  | _, _ => false
  end.

(** The two kinds of object that meet in the handler's comparison. *)
Inductive pyobj : Type :=
  | PJson (v : json)
  | PMember (m : WebhookEventType).

(** [a != m] for a member [m] of [WebhookEventType].  The class derives
    from [enum.Enum] alone, so a member compares equal to itself and to
    nothing else; in particular not to the string that is its value. *)
Definition ne_member (a : pyobj) (m : WebhookEventType) : bool :=
  match a with
  | PMember m' => negb (WebhookEventType_eqb m' m)
  | PJson _ => true
  end.

Definition QUERY : string := "
query Applied($environmentId: BigInt!, $filter: AppliedResourcesFilter!, $first: Int, $after: String) {
  environment(id: $environmentId) {
    applied {
      resources(filter: $filter, first: $first, after: $after) {
        edges {
          node {
            ... on ModelAppliedStateNode {
              modelExecutionInfo: executionInfo {
                compileCompletedAt
                compileStartedAt
                executeCompletedAt
                executeStartedAt
                executionTime
                lastJobDefinitionId
                lastRunError
                lastRunGeneratedAt
                lastRunId
                lastRunStatus
                lastSuccessJobDefinitionId
                lastSuccessRunId
                runElapsedTime
                runGeneratedAt
              }
              access
              alias
              database
              environmentId
              fqn
              group
              language
              materializedType
              modelingLayer
              name
              packageName
              projectId
              uniqueId
              schema
              resourceType
            }
            ... on TestAppliedStateNode {
              testExecutionInfo: executionInfo {
                compileCompletedAt
                compileStartedAt
                executeCompletedAt
                executeStartedAt
                executionTime
                lastJobDefinitionId
                lastRunError
                lastRunFailures
                lastRunGeneratedAt
                lastRunId
                lastRunStatus
                lastSuccessJobDefinitionId
                lastSuccessRunId
                runElapsedTime
                runGeneratedAt
              }
              environmentId
              fqn
              name
              projectId
              uniqueId
              resourceType
            }
            ... on SeedAppliedStateNode {
              seedExecutionInfo: executionInfo {
                compileCompletedAt
                compileStartedAt
                executeCompletedAt
                executeStartedAt
                executionTime
                lastJobDefinitionId
                lastRunError
                lastRunGeneratedAt
                lastRunId
                lastRunStatus
                lastSuccessJobDefinitionId
                lastSuccessRunId
                runElapsedTime
                runGeneratedAt
              }
              alias
              database
              environmentId
              fqn
              name
              packageName
              projectId
              uniqueId
              schema
              resourceType
            }
            ... on SnapshotAppliedStateNode {
              snapshotExecutionInfo: executionInfo {
                compileCompletedAt
                compileStartedAt
                executeCompletedAt
                executeStartedAt
                executionTime
                lastJobDefinitionId
                lastRunError
                lastRunGeneratedAt
                lastRunId
                lastRunStatus
                lastSuccessJobDefinitionId
                lastSuccessRunId
                runElapsedTime
                runGeneratedAt
              }
              alias
              database
              environmentId
              fqn
              name
              packageName
              projectId
              uniqueId
              schema
              resourceType
            }
          }
        }
        pageInfo {
          endCursor
          hasNextPage
          hasPreviousPage
          startCursor
        }
        totalCount
      }
    }
  }
}
".

(** The inbound request, as far as the handler looks at it. *)
Record Request : Type := {
  (** [await request.body()] *)
  request_body : string;
  (** [request.headers.get("authorization")] *)
  request_authorization : option string;
  (** [await request.json()] *)
  request_json : result json;
}.

Section Handler.
Context (w : world).

Definition verify_signature (request : Request) : M unit :=
  let payload := request_body request in
  let signature := request_authorization request in
  let secret := env w !! "DBT_CLOUD_WEBHOOK_SECRET" in
  match signature, secret with
  | Some signature, Some secret =>
      if (negb (Py.truthy (JStr signature)) || negb (Py.truthy (JStr secret)))%bool
      then raise (HTTPException 400 "Missing signature or secret")
      else
        computed_signature ← lift (hmac_sha256_hexdigest w secret payload);
        same ← lift (Py.compare_digest computed_signature signature);
        if negb same
        then raise (HTTPException 401 "Invalid signature")
        else mret tt
  | _, _ => raise (HTTPException 400 "Missing signature or secret")
  end.

(** The comma-joined [key:value] pairs of [tags.items()], each pair
    rendered by [str.format]. *)
Definition join_tags (tags : list (string * json)) : string :=
  String.concat "," ((λ i, i.1 +:+ ":" +:+ py_str w i.2) <$> tags).

Definition submit_log (body : list HTTPLogItem) : M json := λ st,
  let r := datadog w (length (submits_of (trace st))) body in
  (Some r, {| trace := trace st ++ [EvSubmit body r]; heap := heap st |}).

(** [for log_items in chunker(logs): ...] *)
Fixpoint submit_batches (batches : list (list HTTPLogItem))
    (responses : list json) : M (list json) :=
  match batches with
  | [] => mret responses
  | log_items :: rest =>
      response ← submit_log log_items;
      emit (EvLog (LogSubmission response));;
      submit_batches rest (responses ++ [response])
  end.

Definition webhook_handler (fuel : nat) (request : Request) : M json :=
  verify_signature request;;
  payload ← lift (request_json request);
  emit (EvLog (LogPayload payload));;
  data ← lift (Py.getitem payload "data");
  event_type ← lift (Py.getitem payload "eventType");
  (if ne_member (PJson event_type) STARTED then
     project_name ← lift (Py.getitem data "projectName");
     environment_name ← lift (Py.getitem data "environmentName");
     job_name ← lift (Py.getitem data "jobName");
     run_id ← lift (Py.getitem data "runId");
     webhook_name ← lift (Py.getitem payload "webhookName");
     run_reason ← lift (Py.getitem data "runReason");
     let tags := [("project_name", project_name);
                  ("environment_name", environment_name);
                  ("job_name", job_name);
                  ("run_id", run_id);
                  ("webhook_name", webhook_name);
                  ("run_reason", run_reason)] in
     env_id ← lift (Py.getitem data "environmentId");
     client ← DiscoveryApiClient_init w env_id;
     edges ← try_except
               (variables ← alloc (<["filter" :=
                    JDict (<["types" := JList (JStr <$> NODE_TYPES)]> ∅)]> ∅);
                run_query w fuel client QUERY (Some variables) 500)
               (λ e, emit (EvLog (LogErrorRunMetadata e));; raise e);
     run_id_arg ← lift (Py.getitem data "runId");
     run_id_int ← lift (PyInt.int w run_id_arg);
     nodes ← lift (get_run_metadata w edges run_id_int);
     let logs :=
       (λ node, {| ddsource := "dbt_cloud";
                   ddtags := join_tags tags;
                   hostname := url client;
                   message := json_dumps w node;
                   service := "dbt_cloud_webhooks" |}) <$> nodes in
     submit_batches (chunker logs) [];;
     mret tt
   else mret tt);;
  mret (JDict (<["status" := JStr "success"]> ∅)).

End Handler.

(** ** Predicates used in the statements *)

(** The record's nested [executionInfo.lastRunId] compares equal ([==])
    to [run_id]. *)
Definition last_run_id_is (run_id : Z) (r : json) : bool :=
  match r with
  | JDict d =>
      match d !! "executionInfo" with
      | Some (JDict info) =>
          match info !! "lastRunId" with
          | Some last => Py.eq_int last run_id
          | None => false
          end
      | _ => false
      end
  | _ => false
  end.

(** Nodes on which [get_execution_info] does not raise: the resource
    type, if present, is a string, and what sits under the derived key,
    if anything truthy, is a dict. *)
Definition node_shaped (w : world) (d : gmap string json) : bool :=
  match default (JStr "") (d !! "resourceType") with
  | JStr rt =>
      if String.eqb (Py.lower_str w rt) "" then true
      else match d !! (Py.lower_str w rt +:+ "ExecutionInfo") with
           | Some (JDict _) | None => true
           | Some v => negb (Py.truthy v)
           end
  | _ => false
  end.

Definition edge_shaped (w : world) (edge : json) : bool :=
  match edge with
  | JDict e =>
      match e !! "node" with
      | Some (JDict d) => node_shaped w d
      | _ => false
      end
  | _ => false
  end.

(** ** Sample data *)

Module Sample.

Definition obj (l : list (string * json)) : json := JDict (list_to_map l).

Definition model_node : gmap string json :=
  list_to_map [("resourceType", JStr "Model"); ("name", JStr "orders");
               ("modelExecutionInfo", obj [("lastRunId", JInt 55)])].
Definition test_node : gmap string json :=
  list_to_map [("resourceType", JStr "Test"); ("name", JStr "not_null");
               ("testExecutionInfo", obj [("lastRunId", JInt 54)])].
Definition untyped_node : gmap string json :=
  list_to_map [("resourceType", JStr ""); ("name", JStr "ghost");
               ("ExecutionInfo", obj [("lastRunId", JInt 55)]);
               ("modelExecutionInfo", obj [("lastRunId", JInt 55)])].
Definition null_typed_node : gmap string json :=
  list_to_map [("resourceType", JNull); ("name", JStr "broken")].
Definition edge_of (d : gmap string json) : gmap string json :=
  {["node" := JDict d]}.
Definition no_node_edge : gmap string json := {["cursor" := JStr "abc"]}.

Definition edges : list json :=
  [JDict (edge_of model_node); JDict (edge_of test_node);
   JDict (edge_of untyped_node)].

(** A response body with the given edges and page information. *)
Definition page_body (es : list json) (page_info : list (string * json))
    : json :=
  obj [("data", obj [("environment", obj [("applied", obj [("resources",
         obj [("edges", JList es); ("pageInfo", obj page_info);
              ("totalCount", JInt 2)])])])])].

Definition first_page : http_response :=
  {| status_code := 200;
     rs_json := Some (page_body [JDict (edge_of model_node)]
                        [("hasNextPage", JBool true);
                         ("endCursor", JStr "c1")]) |}.
Definition last_page : http_response :=
  {| status_code := 200;
     rs_json := Some (page_body [JDict (edge_of test_node)]
                        [("hasNextPage", JBool false);
                         ("endCursor", JNull)]) |}.
Definition unavailable : http_response :=
  {| status_code := 503; rs_json := None |}.

Definition environ : gmap string string :=
  list_to_map [("DBT_CLOUD_SERVICE_TOKEN", "dbtc_token");
               ("DBT_CLOUD_WEBHOOK_SECRET", "secret")].

(** The runtime on ASCII text, which is all the samples are made of:
    letters A to Z are lowered, [int()] reads an optionally signed run of
    digits (with single underscores inside, blanks around). *)
Definition lower_ascii (c : ascii) : ascii :=
  let n := N_of_ascii c in
  if ((65 <=? n) && (n <=? 90))%N then ascii_of_N (n + 32) else c.

Fixpoint ascii_lower (s : string) : string :=
  match s with
  | EmptyString => EmptyString
  | String c s' => String (lower_ascii c) (ascii_lower s')
  end.

Definition is_space (c : ascii) : bool :=
  let n := N_of_ascii c in
  (((9 <=? n) && (n <=? 13)) || (n =? 32))%N.

Definition digit_of (c : ascii) : option Z :=
  let n := N_of_ascii c in
  if ((48 <=? n) && (n <=? 57))%N then Some (Z.of_N n - 48)%Z else None.

Fixpoint digits (s : list ascii) (acc : Z) (after_digit : bool) : option Z :=
  match s with
  | [] => if after_digit then Some acc else None
  | c :: s' =>
      match digit_of c with
      | Some d => digits s' (10 * acc + d)%Z true
      | None =>
          if (Ascii.eqb c "_" && after_digit)%bool then digits s' acc false
          else None
      end
  end.

Definition signed (s : list ascii) : option Z :=
  match s with
  | c :: s' =>
      if Ascii.eqb c "-" then Z.opp <$> digits s' 0 false
      else if Ascii.eqb c "+" then digits s' 0 false
      else digits s 0 false
  | [] => None
  end.

Fixpoint lstrip (s : list ascii) : list ascii :=
  match s with
  | c :: s' => if is_space c then lstrip s' else s
  | [] => []
  end.

Definition strip (s : list ascii) : list ascii :=
  reverse (lstrip (reverse (lstrip s))).

Definition ascii_int (s : string) : result Z :=
  match signed (strip (list_ascii_of_string s)) with
  | Some z => Ok z
  | None =>
      Raise (ValueError ("invalid literal for int() with base 10: '"
                         +:+ s +:+ "'"))
  end.

(** A world with the given environment, API and ingestion client. *)
Definition make (e : gmap string string)
    (a : nat → http_request → http_response)
    (dd : nat → list HTTPLogItem → result json) : world :=
  {| env := e;
     api := a;
     datadog := dd;
     str_lower := ascii_lower;
     int_of_str := ascii_int;
     iter_str := λ s, (λ c, String c EmptyString) <$> list_ascii_of_string s;
     iter_dict := λ d, (map_to_list d).*1;
     py_str := λ _, "";
     json_dumps := λ _, "";
     hmac_sha256_hexdigest := λ _ _, Ok "5f3c" |}.

(** An API with two pages, and collaborators that accept everything. *)
Definition two_pages : world :=
  make environ (λ n _, match n with O => first_page | _ => last_page end)
    (λ _ _, Ok (JDict ∅)).

(** The same API failing on its second page. *)
Definition second_page_down : world :=
  make environ (λ n _, match n with O => first_page | _ => unavailable end)
    (λ _ _, Ok (JDict ∅)).

(** An API whose one page comes with the given status. *)
Definition page_with_status (status : Z) : http_response :=
  {| status_code := status;
     rs_json := Some (page_body [JDict (edge_of model_node)]
                        [("hasNextPage", JBool false)]) |}.
Definition with_status (status : Z) : world :=
  make environ (λ _ _, page_with_status status) (λ _ _, Ok (JDict ∅)).

(** The two-page world with the service token missing. *)
Definition no_token : world :=
  make {["DBT_CLOUD_WEBHOOK_SECRET" := "secret"]} (api two_pages)
    (datadog two_pages).

Definition run_data : gmap string json :=
  list_to_map [("runId", JStr "55"); ("environmentId", JInt 10);
               ("projectName", JStr "Analytics");
               ("environmentName", JStr "Production");
               ("jobName", JStr "Daily"); ("runReason", JStr "scheduled")].

Definition payload (event_type : string) : gmap string json :=
  list_to_map [("eventType", JStr event_type);
               ("webhookName", JStr "datadog"); ("data", JDict run_data)].

Definition delivery (event_type : string) : Request :=
  {| request_body := "{}";
     request_authorization := Some "5f3c";
     request_json := Ok (JDict (payload event_type)) |}.

Definition client : DiscoveryApiClient :=
  {| environment_id := JInt 10; token := "dbtc_token"; url := DEFAULT_URL |}.

(** A store holding one mapping, as a caller of [run_query] might pass. *)
Definition caller_variables : gmap string json :=
  list_to_map [("filter", obj [("types", JList [JStr "Model"])]);
               ("after", JStr "stale"); ("first", JInt 1)].
Definition caller_state : state :=
  {| trace := []; heap := [caller_variables] |}.

End Sample.

(** ** Views on requests, responses and runs *)

(** The [variables] mapping a request carries in its JSON body. *)
Definition variables_of (rq : http_request) : option (gmap string json) :=
  match rq_json rq with
  | JDict body =>
      match body !! "variables" with
      | Some (JDict vars) => Some vars
      | _ => None
      end
  | _ => None
  end.

(** The cursor a request carries as [variables.after]. *)
Definition after_of (rq : http_request) : option json :=
  vars ← variables_of rq; vars !! "after".

(** [data.environment.applied.resources] of a response body, split into
    its [edges] list and its [pageInfo] mapping. *)
Definition page_parts (j : json) : option (list json * gmap string json) :=
  match resources_of j with
  | Ok (JDict res) =>
      match res !! "edges", res !! "pageInfo" with
      | Some (JList es), Some (JDict page_info) => Some (es, page_info)
      | _, _ => None
      end
  | _ => None
  end.

(** [pageInfo.hasNextPage], read as the client reads it. *)
Definition has_next_page (page_info : gmap string json) : bool :=
  Py.truthy (default (JBool false) (page_info !! "hasNextPage")).

(** A successful response holding the edges [es], announcing a next page
    and naming the cursor [c] to fetch it with. *)
Definition continuing_page (rs : http_response) (es : list json) (c : json)
    : Prop :=
  ok rs = true ∧
  ∃ j page_info,
    rs_json rs = Some j ∧ page_parts j = Some (es, page_info) ∧
    has_next_page page_info = true ∧
    page_info !! "endCursor" = Some c ∧ Py.truthy c = true.

(** A successful response holding the edges [es] whose [hasNextPage] is
    false or absent. *)
Definition final_page (rs : http_response) (es : list json) : Prop :=
  ok rs = true ∧
  ∃ j page_info,
    rs_json rs = Some j ∧ page_parts j = Some (es, page_info) ∧
    has_next_page page_info = false.


Section Views.
Context (w : world).

(** What one turn of the loop reads off a response. *)
Definition read_page (rs : http_response) : result (json * list json) :=
  raise_for_status rs;;
  api_response ← response_json rs;
  cursor ← _get_next_page_cursor api_response;
  results ← _extract_query_results api_response;
  more ← iterate w results;
  Ok (cursor, more).

(** The mapping [_run_query_with_cursor] merges into [variables]. *)
Definition page_variables (self : DiscoveryApiClient) (limit : Z)
    (after_cursor : json) : gmap string json :=
  <["environmentId" := environment_id self]>
    (<["limit" := JInt limit]>
       (<["after" := after_cursor]> (<["first" := JInt limit]> ∅))).

(** The store as a call finds it once [variables] names an object. *)
Definition store_for (variables : option loc) (st : state)
    : loc * list (gmap string json) :=
  match variables with
  | Some l => (l, heap st)
  | None => (length (heap st), heap st ++ [∅])
  end.

(** The content of [variables] as a call from state [st] with cursor [c]
    puts it into the request body. *)
Definition sent_variables (self : DiscoveryApiClient)
    (variables : option loc) (limit : Z) (st : state) (c : json)
    : gmap string json :=
  let '(l, h) := store_for variables st in
  default ∅ (<[l := page_variables self limit c ∪ default ∅ (h !! l)]> h !! l).

(** The request such a call posts. *)
Definition sent_request (self : DiscoveryApiClient) (query : string)
    (variables : option loc) (limit : Z) (st : state) (c : json)
    : http_request :=
  {| rq_url := url self;
     rq_json :=
       JDict (<["query" := JStr query]>
                (<["variables" :=
                     JDict (sent_variables self variables limit st c)]> ∅));
     rq_headers := [("Authorization", "Bearer " +:+ token self);
                    ("content-type", "application/json")] |}.

(** The API's answer to it. *)
Definition reply (self : DiscoveryApiClient) (query : string)
    (variables : option loc) (limit : Z) (st : state) (c : json)
    : http_response :=
  api w (length (posts_of (trace st)))
    (sent_request self query variables limit st c).

(** [variables], when given, refers to an object of the store. *)
Definition valid_ref (variables : option loc) (st : state) : bool :=
  match variables with
  | Some l => bool_decide (l < length (heap st))
  | None => true
  end.

(** The state one call of [_run_query_with_cursor] leaves behind. *)
Definition request_state (self : DiscoveryApiClient) (query : string)
    (variables : option loc) (limit : Z) (st : state) (cursor : json)
    : state :=
  (_run_query_with_cursor w self query variables cursor limit st).2.

(** The state after one call per cursor of [cursors], in order. *)
Definition states_after (self : DiscoveryApiClient) (query : string)
    (variables : option loc) (limit : Z) (st : state)
    (cursors : list json) : state :=
  foldl (request_state self query variables limit) st cursors.

(** The POSTs made from state [st] on, as a run ended in state [st']. *)
Definition new_posts (st st' : state)
    : list (http_request * http_response) :=
  drop (length (posts_of (trace st))) (posts_of (trace st')).

(** The log batches submitted from state [st] on. *)
Definition new_submits (st st' : state) : list (list HTTPLogItem) :=
  drop (length (submits_of (trace st))) (submits_of (trace st')).

End Views.

(** ** Views on deliveries *)

Section Deliveries.
Context (w : world).

(** A delivery the handler takes as far as the metadata fetch: the
    signature verifies, the body parses to [payload] whose ["data"] is
    [data], every field the handler reads is there, and the service
    token [tok] is configured. *)
Definition accepted (request : Request) (payload data : gmap string json)
    (tok : string) : Prop :=
  (verify_signature w request initial_state).1 = Some (Ok tt) ∧
  request_json request = Ok (JDict payload) ∧
  payload !! "data" = Some (JDict data) ∧
  is_Some (payload !! "eventType") ∧
  is_Some (payload !! "webhookName") ∧
  Forall (λ k, is_Some (data !! k))
    ["projectName"; "environmentName"; "jobName"; "runId"; "runReason";
     "environmentId"] ∧
  env w !! "DBT_CLOUD_SERVICE_TOKEN" = Some tok.

(** The client the handler builds for such a delivery. *)
Definition handler_client (data : gmap string json) (tok : string)
    : DiscoveryApiClient :=
  {| environment_id := default JNull (data !! "environmentId");
     token := tok;
     url := default DEFAULT_URL (env w !! "DBT_CLOUD_METADATA_URL") |}.

(** The state in which the handler calls [run_query]: the payload has
    been logged and the [variables] literal allocated. *)
Definition fetch_state (st : state) (payload : gmap string json) : state :=
  {| trace := trace st ++ [EvLog (LogPayload (JDict payload))];
     heap :=
       heap st ++
       [<["filter" :=
            JDict (<["types" := JList (JStr <$> NODE_TYPES)]> ∅)]> ∅] |}.

End Deliveries.

(** ** Proof automation *)

(** Unfolds the monad's plumbing in the goal. *)
Ltac run_M :=
  cbv [mbind M_bind mret M_ret result_bind result_ret
       dict_update deref emit requests_post lift raise alloc diverge
       try_except];
  cbn [fst snd trace heap].

(** Case analysis on an innermost scrutinee of the goal. *)
Ltac case_inner :=
  match goal with
  | |- context [match ?x with _ => _ end] =>
      lazymatch x with
      | context [match _ with _ => _ end] => fail
      | _ => destruct x
      end
  end.

(** Closes a goal stating that a concrete response is a page. *)
Ltac concrete_page :=
  split; [reflexivity |];
  eexists _, _; split; [reflexivity |];
  split; [vm_compute; reflexivity |];
  repeat split; vm_compute; reflexivity.

(** ** More views on pages and runs *)

(** A successful response holding the edges [es] that announces a next
    page but names no cursor the client could follow. *)
Definition stalled_page (rs : http_response) (es : list json) : Prop :=
  ok rs = true ∧
  ∃ j page_info c,
    rs_json rs = Some j ∧ page_parts j = Some (es, page_info) ∧
    has_next_page page_info = true ∧
    page_info !! "endCursor" = Some c ∧ Py.truthy c = false.

Section Chains.
Context (w : world).

(** The cursors [cs] are those the loop goes through after [c]: each is
    truthy and was read off the response to the call before it. *)
Fixpoint cursor_chain (self : DiscoveryApiClient) (query : string)
    (variables : option loc) (limit : Z) (st : state) (c : json)
    (cs : list json) : Prop :=
  match cs with
  | [] => True
  | c' :: cs' =>
      (∃ more, read_page w (reply w self query variables limit st c) =
               Ok (c', more)) ∧
      Py.truthy c' = true ∧
      cursor_chain self query variables limit
        (request_state w self query variables limit st c) c' cs'
  end.

End Chains.

Module SampleMore.

(** An API whose every answer announces a further page. *)
Definition endless : world :=
  Sample.make Sample.environ (λ _ _, Sample.first_page)
    (λ _ _, Ok (JDict ∅)).

Definition cursorless_page : http_response :=
  {| status_code := 200;
     rs_json := Some (Sample.page_body [JDict (Sample.edge_of Sample.model_node)]
                        [("hasNextPage", JBool true); ("endCursor", JNull)]) |}.

(** An API that announces a next page without a cursor. *)
Definition cursorless : world :=
  Sample.make Sample.environ (λ _ _, cursorless_page)
    (λ _ _, Ok (JDict ∅)).

(** An API answering 200 with the given body, if any, on every call. *)
Definition answering (body : option json) : world :=
  Sample.make Sample.environ (λ _ _, {| status_code := 200; rs_json := body |})
    (λ _ _, Ok (JDict ∅)).

(** A model node whose [lastRunId] came as text. *)
Definition textual_node : gmap string json :=
  list_to_map [("resourceType", JStr "Model"); ("name", JStr "orders");
               ("modelExecutionInfo", Sample.obj [("lastRunId", JStr "55")])].

(** A delivery like [Sample.delivery] for another run id. *)
Definition delivery_for (run_id : json) : Request :=
  {| request_body := "{}";
     request_authorization := Some "5f3c";
     request_json :=
       Ok (JDict (<["data" := JDict (<["runId" := run_id]> Sample.run_data)]>
                    (Sample.payload "job.run.completed"))) |}.

(** A delivery whose signature header is not the digest. *)
Definition forged_delivery : Request :=
  {| request_body := "{}";
     request_authorization := Some "0000";
     request_json := Ok (JDict (Sample.payload "job.run.completed")) |}.

(** A delivery whose signature header holds a character outside ASCII
    (U+00C4, two bytes in UTF-8). *)
Definition non_ascii_delivery : Request :=
  {| request_body := "{}";
     request_authorization :=
       Some (String (ascii_of_nat 195) (String (ascii_of_nat 132) ""));
     request_json := Ok (JDict (Sample.payload "job.run.completed")) |}.

(** The two-page world with an ingestion client that refuses. *)
Definition ingestion_down : world :=
  Sample.make Sample.environ (api Sample.two_pages)
    (λ _ _, Raise (ApiException 500)).

End SampleMore.

(** ** Views on the dispatch *)

Section Dispatch.
Context (w : world).

(** The log item the handler builds for an extracted [node]. *)
Definition log_item (payload data : gmap string json)
    (client : DiscoveryApiClient) (node : json) : HTTPLogItem :=
  {| ddsource := "dbt_cloud";
     ddtags :=
       join_tags w
         [("project_name", default JNull (data !! "projectName"));
          ("environment_name", default JNull (data !! "environmentName"));
          ("job_name", default JNull (data !! "jobName"));
          ("run_id", default JNull (data !! "runId"));
          ("webhook_name", default JNull (payload !! "webhookName"));
          ("run_reason", default JNull (data !! "runReason"))];
     hostname := url client;
     message := json_dumps w node;
     service := "dbt_cloud_webhooks" |}.

(** What the handler does with the fetched [edges]. *)
Definition dispatch (payload data : gmap string json)
    (client : DiscoveryApiClient) (edges : list json) : M json :=
  run_id_int ← lift (PyInt.int w (default JNull (data !! "runId")));
  nodes ← lift (get_run_metadata w edges run_id_int);
  submit_batches w (chunker (log_item payload data client <$> nodes)) [];;
  mret (JDict (<["status" := JStr "success"]> ∅)).

(** The [variables] literal of the handler. *)
Definition filter_variables : gmap string json :=
  <["filter" := JDict (<["types" := JList (JStr <$> NODE_TYPES)]> ∅)]> ∅.

(** The signature header and the secret are both there and not empty,
    the header is plain ASCII, and it is the digest of the body under the
    secret. *)
Definition signature_valid (request : Request) : Prop :=
  ∃ signature secret,
    request_authorization request = Some signature ∧
    env w !! "DBT_CLOUD_WEBHOOK_SECRET" = Some secret ∧
    signature ≠ "" ∧ secret ≠ "" ∧
    Py.is_ascii signature = true ∧
    hmac_sha256_hexdigest w secret (request_body request) = Ok signature.

End Dispatch.

(** Closes a goal stating that a concrete delivery is accepted. *)
Ltac accepted_delivery :=
  repeat split; try (vm_compute; reflexivity);
  try (vm_compute; eexists; reflexivity);
  repeat constructor; vm_compute; eexists; reflexivity.

(** * Properties of the extractor *)

Section Extractor.
Context (w : world).
Implicit Types (edges out : list json) (d : gmap string json).

Lemma lower_str_nil : Py.lower_str w "" = "".
Proof. reflexivity. Qed.

Lemma lower_str_nonempty s : Py.lower_str w s ≠ "" → s ≠ "".
Proof. by intros Hs ->. Qed.

Lemma truthy_str s : Py.truthy (JStr s) = true ↔ s ≠ "".
Proof.
  simpl. destruct (String.eqb_spec s ""); simpl; split; congruence.
Qed.

Lemma length_app_str (s t : string) :
  String.length (s +:+ t) = String.length s + String.length t.
Proof. induction s; simpl; [done | by rewrite IHs]. Qed.

(** The type-specific key never collides with the normalized one. *)
Lemma execution_info_key_fresh (s : string) :
  s ≠ "" → s +:+ "ExecutionInfo" ≠ "executionInfo".
Proof.
  intros Hs Heq. apply (f_equal String.length) in Heq.
  rewrite length_app_str in Heq. destruct s; [done | simpl in Heq; lia].
Qed.

Lemma filter_key_delete d (key : string) :
  filter (λ kv : string * json, Some kv.1 ≠ Some key) d = delete key d.
Proof.
  apply map_eq; intros k. destruct (decide (k = key)) as [-> | Hne].
  - rewrite lookup_delete_eq. apply map_lookup_filter_None.
    right. intros x _ Hx. by apply Hx.
  - rewrite lookup_delete_ne by done.
    destruct (d !! k) as [x |] eqn:Hk.
    + apply map_lookup_filter_Some. split; [done | simpl; congruence].
    + apply map_lookup_filter_None. by left.
Qed.

Lemma normalized_node_Some d key x :
  normalized_node d (Some key) x = <["executionInfo" := x]> (delete key d).
Proof. unfold normalized_node. by rewrite filter_key_delete. Qed.

(** A record is appended exactly for a node with a string resource type,
    a dict under the derived key, and a matching [lastRunId]. *)
Lemma extract_edge_Some run_id edge r :
  extract_edge w run_id edge = Ok (Some r) →
  ∃ e d rt info last,
    edge = JDict e ∧ e !! "node" = Some (JDict d) ∧
    default (JStr "") (d !! "resourceType") = JStr rt ∧
    Py.lower_str w rt ≠ "" ∧
    d !! (Py.lower_str w rt +:+ "ExecutionInfo") = Some (JDict info) ∧
    info !! "lastRunId" = Some last ∧
    Py.eq_int last run_id = true ∧
    r = JDict (<["executionInfo" := JDict info]>
                 (delete (Py.lower_str w rt +:+ "ExecutionInfo") d)).
Proof.
  unfold extract_edge. destruct edge as [| | | | | |e]; try done.
  simpl. destruct (e !! "node") as [node|] eqn:Hnode; [|done]. simpl.
  destruct node as [| | | | | |d]; try done.
  unfold get_execution_info. simpl.
  destruct (default (JStr "") (d !! "resourceType")) as [| | | |rt| |] eqn:Hrt;
    try done.
  simpl. destruct (String.eqb_spec (Py.lower_str w rt) "") as [Hl | Hl];
    simpl; [done |].
  set (key := Py.lower_str w rt +:+ "ExecutionInfo") in *.
  destruct (d !! key) as [info |] eqn:Hinfo; simpl; [| done].
  destruct (Py.truthy info) eqn:Htr; simpl; [| done].
  destruct info as [| | | | | |info]; try done. simpl.
  destruct (info !! "lastRunId") as [last |] eqn:Hlast; simpl.
  - destruct (Py.eq_int last run_id) eqn:Heq; simpl; [| done].
    rewrite Hinfo. simpl. intros [= <-].
    exists e, d, rt, info, last. rewrite normalized_node_Some.
    by repeat split.
  - done.
Qed.

Lemma get_run_metadata_loop_acc run_id edges acc :
  get_run_metadata_loop w run_id edges acc =
  out ← get_run_metadata_loop w run_id edges []; Ok (acc ++ out).
Proof.
  revert acc. induction edges as [| edge rest IH]; intros acc; simpl.
  - by rewrite app_nil_r.
  - destruct (extract_edge w run_id edge) as [[node |] | e]; simpl; [| done..].
    rewrite (IH (acc ++ [node])), (IH [node]).
    destruct (get_run_metadata_loop w run_id rest []); simpl; [| done].
    by rewrite <- app_assoc.
Qed.

Lemma get_run_metadata_cons run_id edge rest :
  get_run_metadata w (edge :: rest) run_id =
  r ← extract_edge w run_id edge;
  out ← get_run_metadata w rest run_id;
  Ok (from_option (λ node, node :: out) out r).
Proof.
  unfold get_run_metadata. simpl.
  destruct (extract_edge w run_id edge) as [[node |] | e]; simpl; [| | done].
  - rewrite get_run_metadata_loop_acc.
    by destruct (get_run_metadata_loop w run_id rest []).
  - by destruct (get_run_metadata_loop w run_id rest []).
Qed.

Lemma get_run_metadata_app run_id l1 l2 :
  get_run_metadata w (l1 ++ l2) run_id =
  a ← get_run_metadata w l1 run_id;
  b ← get_run_metadata w l2 run_id;
  Ok (a ++ b).
Proof.
  induction l1 as [| edge l1 IH]; simpl.
  - change (get_run_metadata w [] run_id) with (Ok (@nil json)). simpl.
    by destruct (get_run_metadata w l2 run_id).
  - rewrite !get_run_metadata_cons, IH.
    destruct (extract_edge w run_id edge) as [r | e]; simpl; [| done].
    destruct (get_run_metadata w l1 run_id) as [a | e]; simpl; [| done].
    destruct (get_run_metadata w l2 run_id) as [b | e]; simpl; [| done].
    by destruct r.
Qed.

Lemma extract_edge_is_ok run_id edge :
  is_ok (extract_edge w run_id edge) = edge_shaped w edge.
Proof.
  unfold extract_edge, edge_shaped.
  destruct edge as [| | | | | |e]; try done. simpl.
  destruct (e !! "node") as [node |]; [| done]. simpl.
  destruct node as [| | | | | |d]; try done.
  unfold get_execution_info, node_shaped. simpl.
  destruct (default (JStr "") (d !! "resourceType")) as [| | | |rt| |];
    try done.
  simpl. destruct (String.eqb (Py.lower_str w rt) ""); simpl; [done |].
  destruct (d !! (Py.lower_str w rt +:+ "ExecutionInfo")) as [info |] eqn:Hi;
    simpl; [| done].
  destruct (Py.truthy info) eqn:Htr; simpl.
  - destruct info as [| | | | | |info];
      try (by rewrite ?Htr); try (by destruct f).
    simpl. destruct (Py.eq_int _ run_id); simpl; [| done].
    by rewrite Hi.
  - by destruct info as [| | | [] | | |].
Qed.

Lemma extract_edge_unkeyed run_id e d :
  e !! "node" = Some (JDict d) →
  d !! "resourceType" = None ∨ d !! "resourceType" = Some (JStr "") →
  extract_edge w run_id (JDict e) = Ok None.
Proof.
  intros He Hrt. unfold extract_edge. simpl. rewrite He. simpl.
  unfold get_execution_info. simpl. by destruct Hrt as [-> | ->].
Qed.

Lemma last_run_id_is_extracted run_id edge r :
  extract_edge w run_id edge = Ok (Some r) → last_run_id_is run_id r = true.
Proof.
  intros (e & d & rt & info & last & _ & _ & _ & _ & _ & Hl & Heq & ->)
    %extract_edge_Some.
  simpl. rewrite lookup_insert_eq. by rewrite Hl.
Qed.

(** The output is the image, in order, of the edges that matched. *)
Lemma get_run_metadata_kept run_id edges out :
  get_run_metadata w edges run_id = Ok out →
  ∃ kept, kept `sublist_of` edges ∧
    Forall2 (λ edge r, extract_edge w run_id edge = Ok (Some r)) kept out.
Proof.
  revert out. induction edges as [| edge rest IH]; intros out.
  - intros [= <-]. exists []. split; constructor.
  - rewrite get_run_metadata_cons.
    destruct (extract_edge w run_id edge) as [r | e] eqn:Hx; simpl; [| done].
    destruct (get_run_metadata w rest run_id) as [out' | e]; simpl; [| done].
    destruct (IH out' eq_refl) as (kept & Hsub & Hall).
    intros [= <-]. destruct r as [node |]; simpl.
    + exists (edge :: kept). split; [by constructor | by constructor].
    + exists kept. split; [by constructor | done].
Qed.

Lemma get_run_metadata_total run_id edges :
  forallb (edge_shaped w) edges = true →
  is_ok (get_run_metadata w edges run_id) = true.
Proof.
  induction edges as [| edge rest IH]; simpl; [done |].
  intros [He Hrest]%andb_prop. rewrite get_run_metadata_cons.
  rewrite <- (extract_edge_is_ok run_id) in He.
  destruct (extract_edge w run_id edge); simpl; [| done].
  specialize (IH Hrest). by destruct (get_run_metadata w rest run_id).
Qed.

(** C2: on every edge list the extractor's output is no longer than the
    input, every record in it has a nested [executionInfo.lastRunId] equal
    to the target run id, and the records are the images, in input order,
    of a subsequence of the edges.  On edge lists of the API's shape the
    extractor does return. *)
Theorem get_run_metadata_sound edges run_id :
  (forallb (edge_shaped w) edges = true →
   is_ok (get_run_metadata w edges run_id) = true) ∧
  (∀ out, get_run_metadata w edges run_id = Ok out →
     (length out ≤ length edges)%nat ∧
     Forall (λ r, last_run_id_is run_id r = true) out ∧
     ∃ kept, kept `sublist_of` edges ∧
       Forall2 (λ edge r, extract_edge w run_id edge = Ok (Some r)) kept out).
Proof.
  split; [apply get_run_metadata_total |].
  intros out Hout.
  destruct (get_run_metadata_kept _ _ _ Hout) as (kept & Hsub & Hall).
  split; [| split; [| by exists kept]].
  - rewrite <- (Forall2_length _ _ _ Hall). by apply sublist_length.
  - clear Hsub Hout. induction Hall; constructor; [| done].
    by eapply last_run_id_is_extracted.
Qed.

(** C5: an edge whose node has no [resourceType], or an empty one, is
    passed over whatever else the node carries: the extractor behaves as
    if the edge were not in the list. *)
Theorem untyped_node_never_extracted run_id l1 l2 e d :
  e !! "node" = Some (JDict d) →
  d !! "resourceType" = None ∨ d !! "resourceType" = Some (JStr "") →
  extract_edge w run_id (JDict e) = Ok None ∧
  get_run_metadata w (l1 ++ JDict e :: l2) run_id =
  get_run_metadata w (l1 ++ l2) run_id.
Proof.
  intros He Hrt. pose proof (extract_edge_unkeyed run_id e d He Hrt) as Hx.
  split; [done |].
  rewrite !get_run_metadata_app, get_run_metadata_cons, Hx. simpl.
  destruct (get_run_metadata w l1 run_id); simpl; [| done].
  by destruct (get_run_metadata w l2 run_id).
Qed.

(** C6: the record of a matching node (a node of the API's making,
    with no [executionInfo] field of its own) holds every field of the
    node but the type-specific execution-info key, each with its value,
    and one key more, [executionInfo], whose value is the sub-record that
    was under the removed key; it holds nothing else. *)
Theorem normalized_record_fields run_id e d r :
  e !! "node" = Some (JDict d) →
  d !! "executionInfo" = None →
  extract_edge w run_id (JDict e) = Ok (Some r) →
  ∃ rt x r',
    d !! "resourceType" = Some (JStr rt) ∧
    d !! (Py.lower_str w rt +:+ "ExecutionInfo") = Some x ∧
    r = JDict r' ∧
    r' !! "executionInfo" = Some x ∧
    r' !! (Py.lower_str w rt +:+ "ExecutionInfo") = None ∧
    (∀ k v, k ≠ Py.lower_str w rt +:+ "ExecutionInfo" →
            d !! k = Some v → r' !! k = Some v) ∧
    (∀ k v, k ≠ "executionInfo" → r' !! k = Some v → d !! k = Some v) ∧
    dom r' =
      {["executionInfo"]} ∪
      (dom d ∖ {[Py.lower_str w rt +:+ "ExecutionInfo"]}).
Proof.
  intros He Hfresh
    (e' & d' & rt & info & last & [= <-] & He' & Hrt & Hne & Hi & _ & _ & ->)
    %extract_edge_Some.
  rewrite He in He'. injection He' as <-.
  set (key := Py.lower_str w rt +:+ "ExecutionInfo") in *.
  assert (key ≠ "executionInfo") as Hkey
    by by apply execution_info_key_fresh.
  exists rt, (JDict info), (<["executionInfo" := JDict info]> (delete key d)).
  split.
  { destruct (d !! "resourceType") as [v |] eqn:Hv; simpl in Hrt;
      [congruence |].
    injection Hrt as <-. by rewrite lower_str_nil in Hne. }
  split; [done |]. split; [done |].
  split; [apply lookup_insert_eq |].
  split; [rewrite lookup_insert_ne by done; apply lookup_delete_eq |].
  split; [| split].
  - intros k v Hk Hv. rewrite lookup_insert_ne by congruence.
    by rewrite lookup_delete_ne.
  - intros k v Hk. rewrite lookup_insert_ne by done.
    intros (_ & Hv)%lookup_delete_Some. done.
  - by rewrite dom_insert_L, dom_delete_L.
Qed.

(** C9: the extractor raises on a node whose [resourceType] is present
    but not a string, and on an edge without a ["node"] key; with a
    string (or no) [resourceType] that lowers to nothing the node is
    passed over instead. *)
Theorem get_run_metadata_raises run_id l1 l2 acc e :
  get_run_metadata w l1 run_id = Ok acc →
  (∀ d v, e !! "node" = Some (JDict d) → d !! "resourceType" = Some v →
          (∀ s, v ≠ JStr s) →
          get_run_metadata w (l1 ++ JDict e :: l2) run_id =
          Raise (AttributeError (Py.type_name v) "lower")) ∧
  (e !! "node" = None →
   get_run_metadata w (l1 ++ JDict e :: l2) run_id = Raise (KeyError "node")) ∧
  (∀ d, e !! "node" = Some (JDict d) →
        d !! "resourceType" = None ∨ d !! "resourceType" = Some (JStr "") →
        extract_edge w run_id (JDict e) = Ok None).
Proof.
  intros Hl1. repeat split.
  - intros d v He Hrt Hv.
    rewrite get_run_metadata_app, Hl1, get_run_metadata_cons. simpl.
    unfold extract_edge. simpl. rewrite He. simpl.
    unfold get_execution_info. simpl. rewrite Hrt. simpl.
    destruct v; try done. by destruct (Hv s).
  - intros He.
    rewrite get_run_metadata_app, Hl1, get_run_metadata_cons. simpl.
    unfold extract_edge. simpl. by rewrite He.
  - intros d. apply extract_edge_unkeyed.
Qed.

End Extractor.

(** * Properties of the batcher *)

Section Chunker.
Context {A : Type}.
Implicit Types (seq : list A) (size pos stop fuel : nat).

Lemma range_from_lookup fuel pos stop size i p :
  range_from fuel pos stop size !! i = Some p →
  p = pos + i * size ∧ p < stop.
Proof.
  revert pos i. induction fuel as [| fuel IH]; intros pos i; simpl; [done |].
  destruct (Nat.ltb_spec pos stop) as [Hlt | Hge]; [| done].
  destruct i as [| i]; simpl.
  - intros [= <-]. lia.
  - intros [-> Hp]%IH. lia.
Qed.

(** The number of positions is the least [k] with [stop <= pos + k * size]. *)
Lemma range_from_length fuel pos stop size :
  0 < size → stop - pos ≤ fuel →
  stop - pos ≤ size * length (range_from fuel pos stop size) ∧
  size * length (range_from fuel pos stop size) < stop - pos + size.
Proof.
  intros Hsize. revert pos. induction fuel as [| fuel IH]; intros pos Hfuel;
    simpl.
  - lia.
  - destruct (Nat.ltb_spec pos stop) as [Hlt | Hge]; simpl; [| lia].
    destruct (IH (pos + size)) as [IH1 IH2]; [lia |].
    rewrite Nat.mul_succ_r.
    destruct (decide (pos + size ≤ stop)) as [Hle | Hgt]; [lia |].
    destruct (length (range_from fuel (pos + size) stop size)) as [| k];
      [lia |].
    rewrite Nat.mul_succ_r in IH2. lia.
Qed.

Lemma chunks_concat fuel pos size seq :
  0 < size → length seq - pos ≤ fuel →
  concat ((λ p, slice seq p (p + size)) <$>
            range_from fuel pos (length seq) size) = drop pos seq.
Proof.
  intros Hsize. revert pos. induction fuel as [| fuel IH]; intros pos Hfuel;
    simpl.
  - rewrite drop_ge; [done | lia].
  - destruct (Nat.ltb_spec pos (length seq)) as [Hlt | Hge]; simpl.
    + rewrite IH by lia. unfold slice.
      replace (pos + size - pos) with size by lia.
      rewrite <- drop_drop. apply take_drop.
    + rewrite drop_ge; [done | lia].
Qed.

Lemma chunker_sized_length size seq :
  0 < size →
  length (chunker_sized size seq) = (length seq + (size - 1)) / size.
Proof.
  intros Hsize. unfold chunker_sized, py_range. rewrite length_fmap.
  destruct (range_from_length (length seq) 0 (length seq) size) as [H1 H2];
    [done | lia |].
  set (k := length (range_from _ _ _ _)) in *.
  apply (Nat.div_unique _ _ _ (length seq + (size - 1) - size * k));
    lia.
Qed.

Lemma chunker_sized_concat size seq :
  0 < size → concat (chunker_sized size seq) = seq.
Proof.
  intros Hsize. unfold chunker_sized, py_range.
  rewrite chunks_concat by lia. apply drop_0.
Qed.

Lemma chunker_sized_lookup size seq i b :
  0 < size →
  chunker_sized size seq !! i = Some b →
  b = take size (drop (i * size) seq) ∧
  0 < length b ≤ size ∧
  (S i < length (chunker_sized size seq) → length b = size).
Proof.
  intros Hsize. unfold chunker_sized, py_range.
  rewrite list_lookup_fmap, length_fmap.
  destruct (range_from _ _ _ _ !! i) as [p |] eqn:Hp; simpl; [| done].
  intros [= <-]. destruct (range_from_lookup _ _ _ _ _ _ Hp) as [-> Hlt].
  unfold slice. simpl. replace (i * size + size - i * size) with size by lia.
  split; [done |]. rewrite length_take, length_drop. split; [lia |].
  intros Hnext. destruct (lookup_lt_is_Some_2 _ _ Hnext) as [p' Hp'].
  destruct (range_from_lookup _ _ _ _ _ _ Hp') as [-> Hlt']. simpl in Hlt'.
  lia.
Qed.

End Chunker.

(** C4: a sequence of [N] items is cut into [ceil(N/1000)] batches; batch
    [i] is the run of at most 1000 items starting at item [1000 * i], so the
    batches are contiguous, disjoint and in order; every batch is non-empty,
    all but the last hold exactly 1000 items; concatenated they give back
    the sequence; no items, no batches. *)
Theorem chunker_batches {A} (seq : list A) :
  length (chunker seq) = (length seq + 999) / 1000 ∧
  concat (chunker seq) = seq ∧
  (∀ i b, chunker seq !! i = Some b →
     b = take 1000 (drop (i * 1000) seq) ∧
     0 < length b ≤ 1000 ∧
     (S i < length (chunker seq) → length b = 1000)) ∧
  (length seq = 0 → chunker seq = []).
Proof.
  assert (0 < DATADOG_MAX_LIST_SIZE) as Hsize
    by (unfold DATADOG_MAX_LIST_SIZE; lia).
  pose proof (chunker_sized_length DATADOG_MAX_LIST_SIZE seq Hsize) as Hlen.
  split; [exact Hlen |].
  split; [exact (chunker_sized_concat DATADOG_MAX_LIST_SIZE seq Hsize) |].
  split.
  - intros i b Hb.
    exact (chunker_sized_lookup DATADOG_MAX_LIST_SIZE seq i b Hsize Hb).
  - intros Hnil. apply nil_length_inv. unfold chunker. rewrite Hlen, Hnil.
    apply Nat.div_small. lia.
Qed.

(** * Properties of the query client *)

Section ClientProofs.
Context (w : world).
Implicit Types (self : DiscoveryApiClient) (st : state) (c cursor : json).

Lemma posts_of_app tr1 tr2 :
  posts_of (tr1 ++ tr2) = posts_of tr1 ++ posts_of tr2.
Proof. unfold posts_of. apply omap_app. Qed.

Lemma submits_of_app tr1 tr2 :
  submits_of (tr1 ++ tr2) = submits_of tr1 ++ submits_of tr2.
Proof. unfold submits_of. apply omap_app. Qed.

Lemma _run_query_with_cursor_eq self query variables limit st c :
  _run_query_with_cursor w self query variables c limit st =
  (Some (raise_for_status (reply w self query variables limit st c) ≫=
           λ _, response_json (reply w self query variables limit st c)),
   {| trace := trace st ++
        [EvLog (LogQuerying c);
         EvPost (sent_request self query variables limit st c)
                (reply w self query variables limit st c)];
      heap := let '(l, h) := store_for variables st in
              <[l := page_variables self limit c ∪ default ∅ (h !! l)]> h |}).
Proof.
  unfold _run_query_with_cursor, reply, sent_request, sent_variables,
    store_for, page_variables.
  destruct variables as [l |]; run_M;
    rewrite posts_of_app, app_nil_r, <- app_assoc; cbn [app];
    match goal with
    | |- context [raise_for_status ?r] =>
        destruct (raise_for_status r) as [[] |]
    end; reflexivity.
Qed.

Lemma request_state_eq self query variables limit st c :
  request_state w self query variables limit st c =
  {| trace := trace st ++
       [EvLog (LogQuerying c);
        EvPost (sent_request self query variables limit st c)
               (reply w self query variables limit st c)];
     heap := let '(l, h) := store_for variables st in
             <[l := page_variables self limit c ∪ default ∅ (h !! l)]> h |}.
Proof. unfold request_state. by rewrite _run_query_with_cursor_eq. Qed.

Lemma run_query_loop_S fuel self query variables limit c acc page st :
  run_query_loop w (S fuel) self query variables limit c acc page st =
  let st1 := request_state w self query variables limit st c in
  match read_page w (reply w self query variables limit st c) with
  | Ok (c', more) =>
      if negb (Py.truthy c') then (Some (Ok (acc ++ more)), st1)
      else run_query_loop w fuel self query variables limit c'
             (acc ++ more) (page + 1)%Z st1
  | Raise e => (Some (Raise e), st1)
  end.
Proof.
  cbn [run_query_loop]. unfold request_state, read_page.
  unfold mbind at 1. unfold M_bind at 1.
  rewrite _run_query_with_cursor_eq. cbn [snd].
  destruct (raise_for_status _) as [[] |]; [| reflexivity].
  cbv [mbind result_bind].
  destruct (response_json _) as [j |]; [| reflexivity].
  cbv [M_bind lift mret M_ret].
  destruct (_get_next_page_cursor j) as [c' |]; [| reflexivity].
  destruct (_extract_query_results j) as [results |]; [| reflexivity].
  destruct (iterate w results) as [more |]; [| reflexivity].
  cbv [result_ret]. by destruct (negb (Py.truthy c')).
Qed.

(** The loop ends on any page whose cursor is not truthy, whatever its
    [hasNextPage] says. *)
Lemma run_query_loop_falsy_cursor fuel self query variables limit c acc page
    st c' more :
  read_page w (reply w self query variables limit st c) = Ok (c', more) →
  Py.truthy c' = false →
  run_query_loop w (S fuel) self query variables limit c acc page st =
  (Some (Ok (acc ++ more)), request_state w self query variables limit st c).
Proof. intros Hread Hc. by rewrite run_query_loop_S, Hread, Hc. Qed.

Lemma page_parts_read j es page_info :
  page_parts j = Some (es, page_info) →
  _get_next_page_cursor j =
    (if has_next_page page_info then Py.getitem (JDict page_info) "endCursor"
     else Ok JNull) ∧
  _extract_query_results j = Ok (JList es).
Proof.
  unfold page_parts, _get_next_page_cursor, _extract_query_results,
    has_next_page.
  destruct (resources_of j) as [[| | | | | |res] |]; try done.
  cbn [mbind result_bind Py.getitem Py.get].
  destruct (res !! "edges") as [[| | | | |es'|] |]; try done.
  destruct (res !! "pageInfo") as [[| | | | | |pi] |]; try done.
  intros [= <- <-]. done.
Qed.

Lemma read_page_continuing rs es c :
  continuing_page rs es c → read_page w rs = Ok (c, es).
Proof.
  intros (Hok & j & page_info & Hj & Hparts & Hnext & Hc & _).
  destruct (page_parts_read _ _ _ Hparts) as [Hcur Hres].
  unfold read_page, raise_for_status, response_json.
  rewrite Hok, Hj. cbn [mbind result_bind].
  rewrite Hcur, Hres, Hnext. cbn [Py.getitem]. by rewrite Hc.
Qed.

Lemma read_page_final rs es :
  final_page rs es → read_page w rs = Ok (JNull, es).
Proof.
  intros (Hok & j & page_info & Hj & Hparts & Hnext).
  destruct (page_parts_read _ _ _ Hparts) as [Hcur Hres].
  unfold read_page, raise_for_status, response_json.
  rewrite Hok, Hj. cbn [mbind result_bind].
  by rewrite Hcur, Hres, Hnext.
Qed.

Lemma read_page_not_ok rs :
  ok rs = false → read_page w rs = Raise (HTTPError (status_code rs)).
Proof. intros Hok. unfold read_page, raise_for_status. by rewrite Hok. Qed.

(** Every call makes exactly one POST, after those already made. *)
Lemma posts_of_request_state self query variables limit st c :
  posts_of (trace (request_state w self query variables limit st c)) =
  posts_of (trace st) ++
    [(sent_request self query variables limit st c,
      reply w self query variables limit st c)].
Proof. rewrite request_state_eq. cbn [trace]. by rewrite posts_of_app. Qed.

Lemma submits_of_request_state self query variables limit st c :
  submits_of (trace (request_state w self query variables limit st c)) =
  submits_of (trace st).
Proof.
  rewrite request_state_eq. cbn [trace].
  rewrite submits_of_app. apply app_nil_r.
Qed.

Lemma states_after_snoc self query variables limit st cs c :
  states_after w self query variables limit st (cs ++ [c]) =
  request_state w self query variables limit
    (states_after w self query variables limit st cs) c.
Proof. unfold states_after. by rewrite foldl_app. Qed.

Lemma posts_of_states_after_length self query variables limit st cs :
  length (posts_of (trace (states_after w self query variables limit st cs)))
  = length (posts_of (trace st)) + length cs.
Proof.
  induction cs as [| c cs IH] using rev_ind.
  - simpl. lia.
  - rewrite states_after_snoc, posts_of_request_state, !length_app, IH.
    simpl. lia.
Qed.

(** While the API keeps announcing a next page the loop keeps going:
    [pages] lists the edges and the cursor of each such response. *)
Lemma run_query_loop_pages self query variables limit
    (pages : list (list json * json)) :
  ∀ fuel c acc page st,
    (∀ i p rq, pages !! i = Some p →
       continuing_page (api w (length (posts_of (trace st)) + i) rq) p.1 p.2) →
    run_query_loop w (length pages + fuel) self query variables limit
      c acc page st =
    run_query_loop w fuel self query variables limit
      (default c (last pages.*2)) (acc ++ concat pages.*1)
      (page + Z.of_nat (length pages))%Z
      (states_after w self query variables limit st
         (take (length pages) (c :: pages.*2))).
Proof.
  induction pages as [| [es c'] pages IH]; intros fuel c acc page st Hpages.
  - simpl. by rewrite app_nil_r, Z.add_0_r.
  - change (length ((es, c') :: pages) + fuel) with (S (length pages + fuel)).
    rewrite run_query_loop_S. cbv zeta.
    pose proof (Hpages 0 (es, c') (sent_request self query variables limit st c)
                  eq_refl) as H0.
    rewrite Nat.add_0_r in H0. apply read_page_continuing in H0 as Hread.
    unfold reply at 1. rewrite Hread.
    destruct H0 as (_ & _ & _ & _ & _ & _ & _ & ->). cbn [negb].
    rewrite IH.
    + f_equal.
      * rewrite fmap_cons, last_cons. by destruct (last pages.*2).
      * simpl. by rewrite <- app_assoc.
      * rewrite length_cons. lia.
    + intros i p rq Hp. rewrite posts_of_request_state, length_app. simpl.
      replace (length (posts_of (trace st)) + 1 + i)
        with (length (posts_of (trace st)) + S i) by lia.
      by apply Hpages.
Qed.

Lemma take_snoc_last {A} (c : A) (cs : list A) :
  take (length cs) (c :: cs) ++ [default c (last cs)] = c :: cs.
Proof.
  revert c. induction cs as [| c' cs IH]; intros c; [done |].
  rewrite last_cons. cbn [length take app]. f_equal.
  rewrite <- (IH c') at 2. by destruct (last cs).
Qed.

Lemma new_posts_states_after_snoc self query variables limit st cs c :
  let st1 := states_after w self query variables limit st cs in
  new_posts st (states_after w self query variables limit st (cs ++ [c])) =
  new_posts st st1 ++
    [(sent_request self query variables limit st1 c,
      reply w self query variables limit st1 c)].
Proof.
  cbv zeta. unfold new_posts.
  rewrite states_after_snoc, posts_of_request_state.
  rewrite drop_app_le; [done |].
  rewrite posts_of_states_after_length. lia.
Qed.

Lemma new_posts_states_after_length self query variables limit st cs :
  length (new_posts st (states_after w self query variables limit st cs))
  = length cs.
Proof.
  unfold new_posts. rewrite length_drop, posts_of_states_after_length. lia.
Qed.

(** Each POST is answered by the API according to its rank. *)
Lemma new_posts_states_after_reply self query variables limit st cs i p :
  new_posts st (states_after w self query variables limit st cs) !! i = Some p →
  p.2 = api w (length (posts_of (trace st)) + i) p.1 ∧
  rq_headers p.1 = [("Authorization", "Bearer " +:+ token self);
                    ("content-type", "application/json")].
Proof.
  revert i p. induction cs as [| c cs IH] using rev_ind; intros i p.
  - unfold new_posts, states_after. simpl. by rewrite drop_all.
  - rewrite new_posts_states_after_snoc. cbv zeta.
    intros Hp. apply lookup_app_Some in Hp as [Hp | [Hlen Hp]].
    + by apply IH.
    + rewrite new_posts_states_after_length in Hlen, Hp.
      apply list_lookup_singleton_Some in Hp as [Hi <-].
      replace i with (length cs) by lia. simpl. unfold reply.
      by rewrite posts_of_states_after_length.
Qed.

Lemma submits_of_states_after self query variables limit st cs :
  submits_of (trace (states_after w self query variables limit st cs)) =
  submits_of (trace st).
Proof.
  induction cs as [| c cs IH] using rev_ind; [done |].
  by rewrite states_after_snoc, submits_of_request_state.
Qed.

(** Whatever the API answers, a run of the loop leaves the state of a
    sequence of calls, the first of them with the initial cursor. *)
Lemma run_query_loop_state self query variables limit fuel :
  ∀ c acc page st,
  ∃ cs,
    (run_query_loop w (S fuel) self query variables limit c acc page st).2 =
    states_after w self query variables limit st (c :: cs) ∧
    length cs ≤ fuel.
Proof.
  induction fuel as [| fuel IH]; intros c acc page st;
    rewrite run_query_loop_S; cbv zeta;
    destruct (read_page w _) as [[c' more] | e];
    try (exists []; split; [done | simpl; lia]);
    destruct (negb (Py.truthy c'));
    try (exists []; split; [done | simpl; lia]).
  destruct (IH c' (acc ++ more) (page + 1)%Z
              (request_state w self query variables limit st c))
    as (cs & Hcs & Hlen).
  exists (c' :: cs). split; [by rewrite Hcs | simpl; lia].
Qed.

Lemma page_variables_lookup self limit c (d : gmap string json) k :
  (page_variables self limit c ∪ d) !! k =
  if decide (k = "environmentId") then Some (environment_id self)
  else if decide (k = "limit") then Some (JInt limit)
  else if decide (k = "after") then Some c
  else if decide (k = "first") then Some (JInt limit)
  else d !! k.
Proof.
  unfold page_variables. rewrite lookup_union, !lookup_insert, lookup_empty.
  repeat case_decide; try congruence; by destruct (d !! k).
Qed.

(** A later merge hides an earlier one: both write the same four keys. *)
Lemma page_variables_absorb self limit c c1 (d : gmap string json) :
  page_variables self limit c ∪ (page_variables self limit c1 ∪ d) =
  page_variables self limit c ∪ d.
Proof.
  apply map_eq; intros k. rewrite !page_variables_lookup.
  by repeat case_decide.
Qed.

Lemma sent_variables_valid self variables limit st c :
  valid_ref variables st = true →
  sent_variables self variables limit st c =
  page_variables self limit c ∪
    default ∅ (variables ≫= λ l, heap st !! l).
Proof.
  unfold sent_variables, store_for, valid_ref.
  destruct variables as [l |]; simpl.
  - intros Hl%bool_decide_eq_true. by rewrite list_lookup_insert_eq.
  - intros _. rewrite list_lookup_insert_eq by (rewrite length_app; simpl; lia).
    by rewrite lookup_app_r, Nat.sub_diag.
Qed.

Lemma variables_of_sent_request self query variables limit st c :
  variables_of (sent_request self query variables limit st c) =
  Some (sent_variables self variables limit st c).
Proof.
  unfold variables_of, sent_request. cbn [rq_json].
  rewrite lookup_insert_ne by done. by rewrite lookup_insert_eq.
Qed.

Lemma after_of_sent_request self query variables limit st c :
  valid_ref variables st = true →
  after_of (sent_request self query variables limit st c) = Some c.
Proof.
  intros Hv. unfold after_of. rewrite variables_of_sent_request. simpl.
  rewrite sent_variables_valid by done. by rewrite page_variables_lookup.
Qed.

Lemma valid_ref_request_state self query variables limit st c :
  valid_ref variables (request_state w self query variables limit st c) =
  valid_ref variables st.
Proof.
  rewrite request_state_eq. unfold valid_ref, store_for.
  destruct variables as [l |]; [| done]. cbn [heap].
  by rewrite length_insert.
Qed.

Lemma valid_ref_states_after self query variables limit st cs :
  valid_ref variables (states_after w self query variables limit st cs) =
  valid_ref variables st.
Proof.
  induction cs as [| c cs IH] using rev_ind; [done |].
  by rewrite states_after_snoc, valid_ref_request_state.
Qed.

(** The calls carry their cursors, in order. *)
Lemma new_posts_states_after_cursors self query variables limit st cs :
  valid_ref variables st = true →
  (after_of ∘ fst) <$>
    new_posts st (states_after w self query variables limit st cs) =
  Some <$> cs.
Proof.
  intros Hv. induction cs as [| c cs IH] using rev_ind.
  - unfold new_posts, states_after. simpl. by rewrite drop_all.
  - rewrite new_posts_states_after_snoc. cbv zeta.
    rewrite !fmap_app, IH. simpl.
    rewrite after_of_sent_request; [done |].
    by rewrite valid_ref_states_after.
Qed.

(** C3: when the API announces a next page, with a cursor, on each of its
    first [k - 1] answers and none on the [k]-th, [run_query] finishes
    within [k] turns of its loop, has then made exactly [k] POSTs, each
    carrying the cursor of the answer before it (none for the first) and
    each answered in turn, and returns the edges of the [k] pages
    concatenated in page order; with fewer turns it has not finished. *)
Theorem run_query_paginates self query variables limit st k
    (edges_of : nat → list json) (cursor_of : nat → json) fuel :
  1 ≤ k →
  valid_ref variables st = true →
  (∀ i rq, i < k - 1 →
     continuing_page (api w (length (posts_of (trace st)) + i) rq)
       (edges_of i) (cursor_of i)) →
  (∀ rq, final_page (api w (length (posts_of (trace st)) + (k - 1)) rq)
           (edges_of (k - 1))) →
  (k ≤ fuel →
   ∃ st',
     run_query w fuel self query variables limit st =
       (Some (Ok (concat (edges_of <$> seq 0 k))), st') ∧
     length (new_posts st st') = k ∧
     (after_of ∘ fst) <$> new_posts st st' =
       Some <$> (JNull :: (cursor_of <$> seq 0 (k - 1))) ∧
     (∀ i p, new_posts st st' !! i = Some p →
        p.2 = api w (length (posts_of (trace st)) + i) p.1)) ∧
  (fuel < k →
   (run_query w fuel self query variables limit st).1 = None).
Proof.
  intros Hk Hv Hcont Hfin.
  set (pages := (λ i, (edges_of i, cursor_of i)) <$> seq 0 (k - 1)).
  assert (length pages = k - 1) as Hlen
    by (unfold pages; by rewrite length_fmap, length_seq).
  assert (∀ i p rq, pages !! i = Some p →
            continuing_page (api w (length (posts_of (trace st)) + i) rq)
              p.1 p.2) as Hpages.
  { intros i p rq Hp. unfold pages in Hp.
    apply list_lookup_fmap_Some in Hp as (j & -> & Hj).
    apply lookup_seq in Hj as [-> Hj]. simpl. by apply Hcont. }
  assert (pages.*1 = edges_of <$> seq 0 (k - 1)) as Hes
    by (unfold pages; rewrite <- list_fmap_compose; done).
  assert (pages.*2 = cursor_of <$> seq 0 (k - 1)) as Hcs
    by (unfold pages; rewrite <- list_fmap_compose; done).
  split.
  - intros Hfuel. unfold run_query.
    replace fuel with (length pages + S (fuel - k)) by lia.
    rewrite run_query_loop_pages by done.
    rewrite run_query_loop_S. cbv zeta. unfold reply.
    rewrite posts_of_states_after_length, length_take, length_cons.
    rewrite <- states_after_snoc.
    replace (length pages `min` S (length pages.*2)) with (k - 1)
      by (rewrite length_fmap; lia).
    rewrite (read_page_final _ _ (Hfin _)). cbn [Py.truthy negb].
    replace (take (length pages) (JNull :: pages.*2))
      with (take (length pages.*2) (JNull :: pages.*2))
      by (by rewrite length_fmap).
    rewrite take_snoc_last.
    eexists. split; [| split; [| split]].
    + f_equal. f_equal. rewrite app_nil_l, Hes.
      replace k with (k - 1 + 1) at 3 by lia.
      by rewrite seq_app, fmap_app, concat_app; simpl; rewrite app_nil_r.
    + rewrite new_posts_states_after_length, length_cons, length_fmap. lia.
    + rewrite new_posts_states_after_cursors by done. by rewrite Hcs.
    + intros i p Hp.
      by destruct (new_posts_states_after_reply _ _ _ _ _ _ _ _ Hp).
  - intros Hfuel. unfold run_query.
    replace fuel with (length (take fuel pages) + 0)
      by (rewrite length_take; lia).
    rewrite run_query_loop_pages; [done |].
    intros i p rq Hp. apply Hpages.
    by apply lookup_take_Some in Hp as [Hp _].
Qed.

(** A response with an error status on the page after [j] good ones
    ends the run with that error, on the failing POST. *)
Lemma run_query_http_error self query variables limit st j
    (edges_of : nat → list json) (cursor_of : nat → json) status fuel :
  (∀ i rq, i < j →
     continuing_page (api w (length (posts_of (trace st)) + i) rq)
       (edges_of i) (cursor_of i)) →
  (∀ rq, ok (api w (length (posts_of (trace st)) + j) rq) = false ∧
         status_code (api w (length (posts_of (trace st)) + j) rq) = status) →
  j < fuel →
  ∃ cs,
    run_query w fuel self query variables limit st =
      (Some (Raise (HTTPError status)),
       states_after w self query variables limit st cs) ∧
    length cs = S j.
Proof.
  intros Hcont Hfail Hfuel.
  set (pages := (λ i, (edges_of i, cursor_of i)) <$> seq 0 j).
  assert (length pages = j) as Hlen
    by (unfold pages; by rewrite length_fmap, length_seq).
  unfold run_query. replace fuel with (length pages + S (fuel - S j)) by lia.
  rewrite run_query_loop_pages.
  - rewrite run_query_loop_S. cbv zeta. unfold reply.
    rewrite posts_of_states_after_length, length_take, length_cons.
    rewrite <- states_after_snoc.
    replace (length pages `min` S (length pages.*2)) with j
      by (rewrite length_fmap; lia).
    destruct (Hfail (sent_request self query variables limit
                       (states_after w self query variables limit st
                          (take (length pages) (JNull :: pages.*2)))
                       (default JNull (last pages.*2)))) as [Hok Hst].
    rewrite (read_page_not_ok _ Hok), Hst.
    eexists. split; [done |].
    rewrite length_app, length_take, length_cons, length_fmap. simpl. lia.
  - intros i p rq Hp. unfold pages in Hp.
    apply list_lookup_fmap_Some in Hp as (i' & -> & Hi).
    apply lookup_seq in Hi as [-> Hi]. simpl. by apply Hcont.
Qed.

Lemma new_submits_states_after self query variables limit st cs :
  new_submits st (states_after w self query variables limit st cs) = [].
Proof.
  unfold new_submits. rewrite submits_of_states_after. apply drop_all.
Qed.

(** The caller's mapping after a sequence of calls: the four keys as the
    last call wrote them, over the original content. *)
Lemma heap_states_after self query l limit st d0 cs :
  heap st !! l = Some d0 →
  ∃ d,
    heap (states_after w self query (Some l) limit st cs) =
      <[l := d]> (heap st) ∧
    d = from_option (λ c, page_variables self limit c ∪ d0) d0 (last cs).
Proof.
  intros Hl. assert (l < length (heap st)) as Hlt by by eapply lookup_lt_Some.
  induction cs as [| c cs (d & IH & Hd)] using rev_ind.
  - exists d0. split; [| done]. simpl. by rewrite list_insert_id.
  - exists (page_variables self limit c ∪ d0).
    rewrite last_snoc. split; [| done].
    rewrite states_after_snoc, request_state_eq. cbn [heap store_for].
    rewrite IH, list_lookup_insert_eq, list_insert_insert_eq by done.
    f_equal. simpl. rewrite Hd. destruct (last cs); simpl; [| done].
    apply page_variables_absorb.
Qed.

(** Every call sends the caller's mapping with the four keys rewritten. *)
Lemma new_posts_states_after_variables self query l limit st d0 cs p :
  heap st !! l = Some d0 →
  p ∈ new_posts st (states_after w self query (Some l) limit st cs) →
  ∃ c, variables_of p.1 = Some (page_variables self limit c ∪ d0).
Proof.
  intros Hl. assert (l < length (heap st)) as Hlt by by eapply lookup_lt_Some.
  revert p. induction cs as [| c cs IH] using rev_ind; intros p.
  - unfold new_posts, states_after. simpl. rewrite drop_all.
    by intros ?%elem_of_nil.
  - rewrite new_posts_states_after_snoc. cbv zeta.
    intros [Hp | ->%list_elem_of_singleton]%elem_of_app; [by apply IH |].
    exists c. cbn [fst]. rewrite variables_of_sent_request.
    rewrite sent_variables_valid
      by (rewrite valid_ref_states_after; by apply bool_decide_eq_true).
    destruct (heap_states_after self query l limit st d0 cs Hl)
      as (d & -> & ->).
    cbn [mbind option_bind]. rewrite list_lookup_insert_eq by done.
    f_equal. simpl. destruct (last cs); simpl; [| done].
    apply page_variables_absorb.
Qed.

Lemma new_posts_states_after_last self query variables limit st cs c :
  last (new_posts st
          (states_after w self query variables limit st (cs ++ [c]))) =
  Some (sent_request self query variables limit
          (states_after w self query variables limit st cs) c,
        reply w self query variables limit
          (states_after w self query variables limit st cs) c).
Proof. rewrite new_posts_states_after_snoc. cbv zeta. apply last_snoc. Qed.

Lemma DiscoveryApiClient_init_no_token environment_id st :
  env w !! "DBT_CLOUD_SERVICE_TOKEN" = None →
  DiscoveryApiClient_init w environment_id st =
  (Some (Raise (ValueError "DBT_CLOUD_SERVICE_TOKEN is not set")), st).
Proof. intros Htok. unfold DiscoveryApiClient_init. by rewrite Htok. Qed.

Lemma DiscoveryApiClient_init_token tok environment_id st :
  env w !! "DBT_CLOUD_SERVICE_TOKEN" = Some tok →
  ∃ self,
    DiscoveryApiClient_init w environment_id st = (Some (Ok self), st) ∧
    token self = tok.
Proof.
  intros Htok. unfold DiscoveryApiClient_init. rewrite Htok. by eexists.
Qed.

(** Every POST of a run, finished or not, carries the bearer header. *)
Lemma run_query_posts_authorized self fuel query variables limit st p :
  p ∈ new_posts st (run_query w fuel self query variables limit st).2 →
  ("Authorization", "Bearer " +:+ token self) ∈ rq_headers p.1.
Proof.
  intros Hp. destruct fuel as [| fuel].
  - unfold new_posts in Hp. simpl in Hp. rewrite drop_all in Hp.
    by apply elem_of_nil in Hp.
  - unfold run_query in Hp.
    destruct (run_query_loop_state self query variables limit fuel
                JNull [] 0%Z st) as (cs & Hcs & _).
    rewrite Hcs in Hp. apply list_elem_of_lookup in Hp as [i Hi].
    destruct (new_posts_states_after_reply _ _ _ _ _ _ _ _ Hi) as [_ ->].
    apply list_elem_of_here.
Qed.

(** C10: a run of [run_query] on a caller's mapping writes into that very
    object: every POST sends the mapping with [environmentId], [limit],
    [first] and [after] overwritten, and afterwards the caller's object
    holds what the last POST sent, the four keys included, its other
    keys untouched; no other object of the store changes. *)
Theorem run_query_mutates_variables self query l limit st d0 fuel :
  heap st !! l = Some d0 →
  0 < fuel →
  let st' := (run_query w fuel self query (Some l) limit st).2 in
  ∃ c d',
    heap st' = <[l := d']> (heap st) ∧
    heap st' !! l = Some d' ∧
    d' !! "environmentId" = Some (environment_id self) ∧
    d' !! "limit" = Some (JInt limit) ∧
    d' !! "first" = Some (JInt limit) ∧
    d' !! "after" = Some c ∧
    (∀ k, k ∉ ["environmentId"; "limit"; "first"; "after"] →
          d' !! k = d0 !! k) ∧
    (∃ p, last (new_posts st st') = Some p ∧ variables_of p.1 = Some d') ∧
    (∀ p, p ∈ new_posts st st' →
       ∃ c_p, variables_of p.1 = Some (page_variables self limit c_p ∪ d0)).
Proof.
  intros Hl Hfuel. cbv zeta.
  assert (l < length (heap st)) as Hlt by by eapply lookup_lt_Some.
  destruct fuel as [| fuel]; [lia |]. unfold run_query.
  destruct (run_query_loop_state self query (Some l) limit fuel
              JNull [] 0%Z st) as (cs & -> & _).
  destruct (heap_states_after self query l limit st d0 (JNull :: cs) Hl)
    as (d & Hheap & Hd).
  destruct (exists_last (l := JNull :: cs)) as (cs0 & c & Hsplit); [done |].
  rewrite Hsplit in *. rewrite last_snoc in Hd. simpl in Hd. subst d.
  exists c, (page_variables self limit c ∪ d0).
  split; [done |]. split; [by rewrite Hheap, list_lookup_insert_eq |].
  rewrite !page_variables_lookup. repeat split; try done.
  - intros k Hk. rewrite page_variables_lookup.
    repeat case_decide; try done; subst; exfalso; apply Hk;
      repeat constructor.
  - eexists. split; [apply new_posts_states_after_last |].
    cbn [fst]. rewrite variables_of_sent_request.
    rewrite sent_variables_valid
      by (rewrite valid_ref_states_after; by apply bool_decide_eq_true).
    cbn [mbind option_bind].
    destruct (heap_states_after self query l limit st d0 cs0 Hl)
      as (d & -> & ->).
    rewrite list_lookup_insert_eq by done.
    f_equal. simpl. destruct (last cs0); simpl; [| done].
    apply page_variables_absorb.
  - intros p Hp. by eapply new_posts_states_after_variables.
Qed.

End ClientProofs.

(** * Properties of the orchestrator *)

Section HandlerProofs.
Context (w : world).

(** No JSON value is equal to a member of the enumeration, so the guard
    of the handler lets every event type through. *)
Lemma ne_member_json (v : json) (m : WebhookEventType) :
  ne_member (PJson v) m = true.
Proof. reflexivity. Qed.

Lemma verify_signature_state request st :
  verify_signature w request st =
  ((verify_signature w request initial_state).1, st).
Proof.
  unfold verify_signature.
  destruct (request_authorization request),
    (env w !! "DBT_CLOUD_WEBHOOK_SECRET"); try done.
  destruct (_ || _)%bool; [done |]. cbv [mbind M_bind lift].
  destruct (hmac_sha256_hexdigest w _ _) as [computed |]; [| done].
  destruct (Py.compare_digest computed _) as [same |]; [| done].
  by destruct (negb same).
Qed.

(** An error raised by the fetch is logged and raised again as it is;
    nothing else happens in the invocation. *)
Lemma webhook_handler_fetch_raises fuel request payload data tok st e st2 :
  accepted w request payload data tok →
  run_query w fuel (handler_client w data tok) QUERY
    (Some (length (heap st))) 500 (fetch_state st payload) =
    (Some (Raise e), st2) →
  webhook_handler w fuel request st =
  (Some (Raise e),
   {| trace := trace st2 ++ [EvLog (LogErrorRunMetadata e)];
      heap := heap st2 |}).
Proof.
  intros (Hsig & Hjson & Hdata & [et Het] & [wn Hwn] & Hfields & Htok) Hrun.
  repeat match goal with
         | H : Forall _ (_ :: _) |- _ =>
             apply Forall_cons in H as [[? ?] H]
         end.
  unfold webhook_handler, DiscoveryApiClient_init.
  cbv [mbind M_bind]. rewrite verify_signature_state, Hsig, Hjson.
  run_M. cbv [Py.getitem]. rewrite Hdata, Het. cbn [ne_member].
  repeat match goal with
         | H : data !! _ = Some _ |- _ => rewrite H
         end.
  rewrite Hwn, Htok. run_M.
  unfold handler_client, fetch_state in Hrun.
  repeat match goal with
         | H : data !! _ = Some _ |- _ => rewrite H in Hrun
         end.
  match type of Hrun with
  | context [default JNull (Some ?x)] =>
      change (default JNull (Some x)) with x in Hrun
  end.
  match goal with
  | |- context [run_query ?a1 ?a2 ?a3 ?a4 ?a5 ?a6 ?a7] =>
      replace (run_query a1 a2 a3 a4 a5 a6 a7)
        with (@pair (option (result (list json))) state (Some (Raise e)) st2)
        by (symmetry; exact Hrun)
  end.
  done.
Qed.

Lemma posts_of_log tr r : posts_of (tr ++ [EvLog r]) = posts_of tr.
Proof. rewrite posts_of_app. apply app_nil_r. Qed.

Lemma submits_of_log tr r : submits_of (tr ++ [EvLog r]) = submits_of tr.
Proof. rewrite submits_of_app. apply app_nil_r. Qed.

(** C7: when the API answers a page request with an error status (after
    [j] good pages), [run_query] raises the transport error in place of
    any list of edges, the failing POST being its last, and the handler
    logs that error and raises the same one, having submitted no logs. *)
Theorem metadata_error_aborts_run fuel j (edges_of : nat → list json)
    (cursor_of : nat → json) status st :
  (∀ i rq, i < j →
     continuing_page (api w (length (posts_of (trace st)) + i) rq)
       (edges_of i) (cursor_of i)) →
  (∀ rq, ok (api w (length (posts_of (trace st)) + j) rq) = false ∧
         status_code (api w (length (posts_of (trace st)) + j) rq) = status) →
  j < fuel →
  (∀ self query variables limit,
   ∃ st',
     run_query w fuel self query variables limit st =
       (Some (Raise (HTTPError status)), st') ∧
     length (new_posts st st') = S j ∧
     new_submits st st' = []) ∧
  (∀ request payload data tok,
     accepted w request payload data tok →
     ∃ st',
       webhook_handler w fuel request st =
         (Some (Raise (HTTPError status)), st') ∧
       length (new_posts st st') = S j ∧
       new_submits st st' = [] ∧
       last (trace st') = Some (EvLog (LogErrorRunMetadata (HTTPError status)))).
Proof.
  intros Hcont Hfail Hfuel. split.
  - intros self query variables limit.
    destruct (run_query_http_error w self query variables limit st j
                edges_of cursor_of status fuel Hcont Hfail Hfuel)
      as (cs & Hrun & Hlen).
    eexists. split; [exact Hrun |]. split.
    + by rewrite new_posts_states_after_length.
    + apply new_submits_states_after.
  - intros request payload data tok Hacc.
    assert (posts_of (trace (fetch_state st payload)) = posts_of (trace st))
      as Hposts by apply posts_of_log.
    assert (submits_of (trace (fetch_state st payload)) =
            submits_of (trace st)) as Hsubs by apply submits_of_log.
    destruct (run_query_http_error w (handler_client w data tok) QUERY
                (Some (length (heap st))) 500 (fetch_state st payload) j
                edges_of cursor_of status fuel) as (cs & Hrun & Hlen);
      [by rewrite Hposts | by rewrite Hposts | done |].
    eexists. split; [by eapply webhook_handler_fetch_raises |].
    unfold new_posts, new_submits. cbn [trace].
    rewrite posts_of_log, submits_of_log, <- Hposts, <- Hsubs.
    split; [| split].
    + fold (new_posts (fetch_state st payload)
              (states_after w (handler_client w data tok) QUERY
                 (Some (length (heap st))) 500 (fetch_state st payload) cs)).
      by rewrite new_posts_states_after_length.
    + apply new_submits_states_after.
    + apply last_snoc.
Qed.

(** Without the service token the handler never reaches the network. *)
Lemma webhook_handler_no_token fuel request st :
  env w !! "DBT_CLOUD_SERVICE_TOKEN" = None →
  new_posts st (webhook_handler w fuel request st).2 = [] ∧
  new_submits st (webhook_handler w fuel request st).2 = [] ∧
  (webhook_handler w fuel request st).1 ≠
    Some (Ok (JDict (<["status" := JStr "success"]> ∅))).
Proof.
  intros Htok. unfold webhook_handler, DiscoveryApiClient_init.
  cbv [mbind M_bind]. rewrite verify_signature_state, Htok. run_M.
  cbn [ne_member].
  repeat case_inner;
    unfold new_posts, new_submits; cbn [fst snd trace];
    rewrite ?posts_of_log, ?submits_of_log, !drop_all; done.
Qed.

(** C8: without the service token in the environment the constructor
    raises its configuration error and leaves the state as it was, and
    an invocation of the handler ends without a single POST; with the
    token the constructor builds a client all of whose POSTs, however
    long the run, carry the token as a bearer [Authorization] header. *)
Theorem client_token_required_and_sent :
  (env w !! "DBT_CLOUD_SERVICE_TOKEN" = None →
   (∀ environment_id st,
      DiscoveryApiClient_init w environment_id st =
      (Some (Raise (ValueError "DBT_CLOUD_SERVICE_TOKEN is not set")), st)) ∧
   (∀ fuel request st,
      new_posts st (webhook_handler w fuel request st).2 = [])) ∧
  (∀ tok, env w !! "DBT_CLOUD_SERVICE_TOKEN" = Some tok →
   ∀ environment_id st,
   ∃ self,
     DiscoveryApiClient_init w environment_id st = (Some (Ok self), st) ∧
     token self = tok ∧
     ∀ fuel query variables limit st1 p,
       p ∈ new_posts st1 (run_query w fuel self query variables limit st1).2 →
       ("Authorization", "Bearer " +:+ tok) ∈ rq_headers p.1).
Proof.
  split.
  - intros Htok. split.
    + intros environment_id st. by apply DiscoveryApiClient_init_no_token.
    + intros fuel request st. by apply webhook_handler_no_token.
  - intros tok Htok environment_id st.
    destruct (DiscoveryApiClient_init_token w tok environment_id st Htok)
      as (self & Hinit & <-).
    exists self. split; [done |]. split; [done |].
    intros fuel query variables limit st1 p.
    apply run_query_posts_authorized.
Qed.

End HandlerProofs.

(** * Scenarios *)

(** C1: a delivery whose event type is ["job.run.started"] is not
    set aside: against a two-page API the handler fetches both pages,
    extracts the matching node, submits one batch of logs, and only then
    answers with success, request for request and batch for batch as it
    does for a completed run. *)
Theorem started_event_is_fetched_and_dispatched :
  let run := webhook_handler Sample.two_pages 5
               (Sample.delivery (WebhookEventType_value STARTED))
               initial_state in
  let completed := webhook_handler Sample.two_pages 5
                     (Sample.delivery (WebhookEventType_value COMPLETED))
                     initial_state in
  run.1 = Some (Ok (JDict {["status" := JStr "success"]})) ∧
  length (posts_of (trace run.2)) = 2 ∧
  length <$> submits_of (trace run.2) = [1] ∧
  posts_of (trace run.2) = posts_of (trace completed.2) ∧
  submits_of (trace run.2) = submits_of (trace completed.2).
Proof. vm_compute. done. Qed.

(** The extractor on the three sample edges, for run 55. *)
Lemma get_run_metadata_sound_witness :
  ∃ out, get_run_metadata Sample.two_pages Sample.edges 55 = Ok out ∧
    length out ≤ 3 ∧ Forall (λ r, last_run_id_is 55 r = true) out.
Proof.
  destruct (get_run_metadata_sound Sample.two_pages Sample.edges 55)
    as [Htotal Hsound].
  assert (is_ok (get_run_metadata Sample.two_pages Sample.edges 55) = true)
    as Hok by (apply Htotal; vm_compute; reflexivity).
  destruct (get_run_metadata Sample.two_pages Sample.edges 55)
    as [out |] eqn:Hout; [| discriminate Hok].
  exists out. destruct (Hsound out eq_refl) as (Hlen & Hall & _).
  split; [reflexivity |]. split; [exact Hlen | exact Hall].
Defined.

(** The node with an empty resource type, between two other edges. *)
Lemma untyped_node_never_extracted_witness :
  get_run_metadata Sample.two_pages
    ([JDict (Sample.edge_of Sample.model_node)] ++
     JDict (Sample.edge_of Sample.untyped_node) ::
     [JDict (Sample.edge_of Sample.test_node)]) 55 =
  get_run_metadata Sample.two_pages
    ([JDict (Sample.edge_of Sample.model_node)] ++
     [JDict (Sample.edge_of Sample.test_node)]) 55.
Proof.
  apply (untyped_node_never_extracted Sample.two_pages 55 _ _ (Sample.edge_of Sample.untyped_node)
           Sample.untyped_node).
  - vm_compute; reflexivity.
  - right. vm_compute; reflexivity.
Defined.

(** The record of the sample model node. *)
Lemma normalized_record_fields_witness :
  ∃ r', extract_edge Sample.two_pages 55
          (JDict (Sample.edge_of Sample.model_node)) = Ok (Some (JDict r')) ∧
        r' !! "modelExecutionInfo" = None ∧
        r' !! "executionInfo" = Sample.model_node !! "modelExecutionInfo" ∧
        r' !! "name" = Some (JStr "orders").
Proof.
  destruct (normalized_record_fields Sample.two_pages 55
              (Sample.edge_of Sample.model_node) Sample.model_node
              (JDict (<["executionInfo" :=
                         Sample.obj [("lastRunId", JInt 55)]]>
                        (delete "modelExecutionInfo" Sample.model_node))))
    as (rt & x & r' & Hrt & Hx & Hr & Hinfo & Hkey & Hkeep & _).
  - vm_compute; reflexivity.
  - vm_compute; reflexivity.
  - vm_compute; reflexivity.
  - exists r'. injection Hr as <-.
    split; [vm_compute; reflexivity |].
    repeat split; vm_compute; reflexivity.
Defined.

(** A null resource type after a good edge; an edge without a node. *)
Lemma get_run_metadata_raises_witness :
  get_run_metadata Sample.two_pages
    ([JDict (Sample.edge_of Sample.model_node)] ++
     JDict (Sample.edge_of Sample.null_typed_node) :: []) 55 =
    Raise (AttributeError "NoneType" "lower") ∧
  get_run_metadata Sample.two_pages ([] ++ JDict Sample.no_node_edge :: Sample.edges) 55 =
    Raise (KeyError "node").
Proof.
  split.
  - destruct (get_run_metadata_raises Sample.two_pages 55
                [JDict (Sample.edge_of Sample.model_node)] []
                [JDict (<["executionInfo" :=
                           Sample.obj [("lastRunId", JInt 55)]]>
                          (delete "modelExecutionInfo" Sample.model_node))]
                (Sample.edge_of Sample.null_typed_node))
      as (Hraise & _ & _); [vm_compute; reflexivity |].
    apply (Hraise Sample.null_typed_node JNull).
    + vm_compute; reflexivity.
    + vm_compute; reflexivity.
    + intros s; discriminate.
  - destruct (get_run_metadata_raises Sample.two_pages 55 [] Sample.edges [] Sample.no_node_edge)
      as (_ & Hraise & _); [reflexivity |].
    apply Hraise. vm_compute; reflexivity.
Defined.

(** Two pages: two turns, two POSTs, both pages' edges in order. *)
Lemma run_query_paginates_witness :
  ∃ st',
    run_query Sample.two_pages 2 Sample.client QUERY None 500 initial_state =
      (Some (Ok [JDict (Sample.edge_of Sample.model_node);
                 JDict (Sample.edge_of Sample.test_node)]), st') ∧
    length (new_posts initial_state st') = 2 ∧
    (run_query Sample.two_pages 1 Sample.client QUERY None 500
       initial_state).1 = None.
Proof.
  pose (edges_of := λ i : nat,
          match i with
          | O => [JDict (Sample.edge_of Sample.model_node)]
          | _ => [JDict (Sample.edge_of Sample.test_node)]
          end).
  assert (∀ fuel,
            (2 ≤ fuel →
             ∃ st',
               run_query Sample.two_pages fuel Sample.client QUERY None 500
                 initial_state =
                 (Some (Ok (concat (edges_of <$> seq 0 2))), st') ∧
               length (new_posts initial_state st') = 2 ∧
               (after_of ∘ fst) <$> new_posts initial_state st' =
                 Some <$> (JNull :: ((λ _, JStr "c1") <$> seq 0 (2 - 1))) ∧
               (∀ i p, new_posts initial_state st' !! i = Some p →
                  p.2 = api Sample.two_pages
                          (length (posts_of (trace initial_state)) + i) p.1)) ∧
            (fuel < 2 →
             (run_query Sample.two_pages fuel Sample.client QUERY None 500
                initial_state).1 = None)) as H.
  { intros fuel.
    apply (run_query_paginates Sample.two_pages Sample.client QUERY None 500
             initial_state 2 edges_of (λ _, JStr "c1") fuel).
    - lia.
    - reflexivity.
    - intros i rq Hi. replace i with 0 by lia. concrete_page.
    - intros rq. concrete_page. }
  destruct (H 2) as [Hrun _]. destruct (H 1) as [_ Hshort].
  destruct (Hrun (le_n 2)) as (st' & Hst' & Hlen & _).
  exists st'. split; [exact Hst' |]. split; [exact Hlen |].
  apply Hshort. lia.
Defined.

(** The second page answers 503: the handler raises that error. *)
Lemma metadata_error_aborts_run_witness :
  ∃ st',
    webhook_handler Sample.second_page_down 3
      (Sample.delivery "job.run.completed") initial_state =
      (Some (Raise (HTTPError 503)), st') ∧
    length (new_posts initial_state st') = 2 ∧
    new_submits initial_state st' = [].
Proof.
  destruct (metadata_error_aborts_run Sample.second_page_down 3 1
              (λ _, [JDict (Sample.edge_of Sample.model_node)])
              (λ _, JStr "c1") 503 initial_state) as [_ Hhandler].
  - intros i rq Hi. replace i with 0 by lia. concrete_page.
  - intros rq. split; reflexivity.
  - lia.
  - destruct (Hhandler (Sample.delivery "job.run.completed")
                (Sample.payload "job.run.completed") Sample.run_data
                "dbtc_token") as (st' & Hrun & Hposts & Hsubs & _).
    + repeat split; try (vm_compute; reflexivity);
        repeat constructor; vm_compute; eexists; reflexivity.
    + exists st'. split; [exact Hrun |]. split; [exact Hposts | exact Hsubs].
Defined.

(** A status outside 200 to 299 on which [raise_for_status] does not
    raise: at 399 and at 600 the body is read as a page, [run_query]
    returns its edges, and the handler submits a batch and answers with
    success. *)
Lemma unraised_status_is_read_as_page :
  let fetch status :=
    run_query (Sample.with_status status) 3 Sample.client QUERY None 500
      initial_state in
  let run status :=
    webhook_handler (Sample.with_status status) 3
      (Sample.delivery "job.run.completed") initial_state in
  let read_as_page status :=
    (fetch status).1 = Some (Ok [JDict (Sample.edge_of Sample.model_node)]) ∧
    status_code ∘ snd <$> posts_of (trace (fetch status).2) = [status] ∧
    (run status).1 = Some (Ok (JDict {["status" := JStr "success"]})) ∧
    status_code ∘ snd <$> posts_of (trace (run status).2) = [status] ∧
    length <$> submits_of (trace (run status).2) = [1] in
  read_as_page 399%Z ∧ read_as_page 600%Z.
Proof. vm_compute. done. Qed.

(** With and without the token in the environment. *)
Lemma client_token_required_and_sent_witness :
  new_posts initial_state
    (webhook_handler Sample.no_token 3 (Sample.delivery "job.run.completed")
       initial_state).2 = [] ∧
  ∃ self,
    DiscoveryApiClient_init Sample.two_pages (JInt 10) initial_state =
      (Some (Ok self), initial_state) ∧
    token self = "dbtc_token".
Proof.
  destruct (client_token_required_and_sent Sample.no_token) as [Hnone _].
  destruct (client_token_required_and_sent Sample.two_pages) as [_ Hsome].
  split.
  - destruct Hnone as [_ Hposts]; [vm_compute; reflexivity |]. apply Hposts.
  - destruct (Hsome "dbtc_token") with (environment_id := JInt 10)
      (st := initial_state) as (self & Hinit & Htok & _);
      [vm_compute; reflexivity |].
    exists self. split; [exact Hinit | exact Htok].
Defined.

(** The caller's mapping after a two-page run. *)
Lemma run_query_mutates_variables_witness :
  ∃ c d',
    heap (run_query Sample.two_pages 2 Sample.client QUERY (Some 0) 500
            Sample.caller_state).2 !! 0 = Some d' ∧
    d' !! "first" = Some (JInt 500) ∧
    d' !! "after" = Some c.
Proof.
  destruct (run_query_mutates_variables Sample.two_pages Sample.client QUERY
              0 500 Sample.caller_state Sample.caller_variables 2)
    as (c & d' & _ & Hheap & _ & _ & Hfirst & Hafter & _).
  - reflexivity.
  - lia.
  - exists c, d'. split; [exact Hheap |]. split; [exact Hfirst | exact Hafter].
Defined.

(** 2001 items: the third batch holds the one item left over; no items,
    no batches. *)
Lemma chunker_batches_witness :
  (∀ b, chunker (replicate 2001 tt) !! 2 = Some b → b = [tt]) ∧
  chunker (replicate 0 tt) = [].
Proof.
  destruct (chunker_batches (replicate 2001 tt)) as (_ & _ & Hget & _).
  destruct (chunker_batches (replicate 0 tt)) as (_ & _ & _ & Hnil).
  split.
  - intros b Hb. destruct (Hget 2 b Hb) as (-> & _).
    vm_compute; reflexivity.
  - apply Hnil. reflexivity.
Defined.

(** * Further properties of the extractor *)

Section ExtractorMore.
Context (w : world).
Implicit Types (edges out : list json) (d e info : gmap string json).

Lemma dict_with_key_truthy info k v :
  info !! k = Some v → Py.truthy (JDict info) = true.
Proof.
  intros Hk. simpl. apply negb_true_iff, Nat.eqb_neq.
  intros Hsize%map_size_empty_iff. by rewrite Hsize, lookup_empty in Hk.
Qed.

(** The loop body on a node whose lower-cased resource type is non-empty
    and whose derived key holds a dict: it is kept or passed over by
    [lastRunId] alone. *)
Lemma extract_edge_keyed run_id e d rt info :
  e !! "node" = Some (JDict d) →
  d !! "resourceType" = Some (JStr rt) →
  Py.lower_str w rt ≠ "" →
  d !! (Py.lower_str w rt +:+ "ExecutionInfo") = Some (JDict info) →
  extract_edge w run_id (JDict e) =
  Ok (if Py.truthy (JDict info) &&
         Py.eq_int (default JNull (info !! "lastRunId")) run_id
      then Some (JDict (<["executionInfo" := JDict info]>
                          (delete (Py.lower_str w rt +:+ "ExecutionInfo") d)))
      else None).
Proof.
  intros He Hrt Hne Hinfo. unfold extract_edge. simpl. rewrite He. simpl.
  unfold get_execution_info. simpl. rewrite Hrt. simpl.
  destruct (String.eqb_spec (Py.lower_str w rt) "") as [Hl | Hl]; [done |].
  simpl. rewrite Hinfo. simpl.
  destruct (negb (size info =? 0)); simpl; [| done].
  destruct (Py.eq_int _ run_id); simpl; [| done].
  rewrite Hinfo. simpl. unfold normalized_node. simpl.
  by rewrite filter_key_delete.
Qed.

(** X1: no resource of the run is lost: an edge whose node names a resource
    type that lower-cases to a non-empty string and carries, under the key
    derived from it, execution info whose [lastRunId] equals the run id has
    its record in the output. *)
Theorem in_run_node_is_extracted edges run_id out e d rt info last :
  get_run_metadata w edges run_id = Ok out →
  JDict e ∈ edges →
  e !! "node" = Some (JDict d) →
  d !! "resourceType" = Some (JStr rt) →
  Py.lower_str w rt ≠ "" →
  d !! (Py.lower_str w rt +:+ "ExecutionInfo") = Some (JDict info) →
  info !! "lastRunId" = Some last →
  Py.eq_int last run_id = true →
  JDict (<["executionInfo" := JDict info]>
           (delete (Py.lower_str w rt +:+ "ExecutionInfo") d)) ∈ out.
Proof.
  intros Hout (l1 & l2 & ->)%list_elem_of_split He Hrt Hne Hinfo Hlast Heq.
  rewrite get_run_metadata_app, get_run_metadata_cons in Hout.
  rewrite (extract_edge_keyed run_id e d rt info He Hrt Hne Hinfo) in Hout.
  rewrite (dict_with_key_truthy info _ _ Hlast), Hlast in Hout.
  simpl in Hout. rewrite Heq in Hout.
  destruct (get_run_metadata w l1 run_id) as [a |]; simpl in Hout; [| done].
  destruct (get_run_metadata w l2 run_id) as [b |]; simpl in Hout; [| done].
  injection Hout as <-. apply elem_of_app. right. apply list_elem_of_here.
Qed.

Lemma extract_edge_other_run run_id e d rt :
  e !! "node" = Some (JDict d) →
  d !! "resourceType" = Some (JStr rt) →
  match d !! (Py.lower_str w rt +:+ "ExecutionInfo") with
  | None => True
  | Some (JDict info) =>
      Py.eq_int (default JNull (info !! "lastRunId")) run_id = false
  | Some v => Py.truthy v = false
  end →
  extract_edge w run_id (JDict e) = Ok None.
Proof.
  intros He Hrt Hinfo.
  destruct (decide (Py.lower_str w rt = "")) as [Hl | Hne].
  { unfold extract_edge. simpl. rewrite He. simpl.
    unfold get_execution_info. simpl. rewrite Hrt. simpl.
    by rewrite Hl. }
  destruct (d !! (Py.lower_str w rt +:+ "ExecutionInfo")) as [v |] eqn:Hv.
  - destruct v as [| | | | | |info].
    7: { rewrite (extract_edge_keyed run_id e d rt info He Hrt Hne Hv), Hinfo.
         by rewrite andb_false_r. }
    all: unfold extract_edge; simpl; rewrite He; simpl;
      unfold get_execution_info; simpl; rewrite Hrt; simpl;
      destruct (String.eqb (Py.lower_str w rt) ""); simpl; [done |];
      rewrite Hv; simpl in Hinfo; simpl; rewrite ?Hinfo; done.
  - unfold extract_edge. simpl. rewrite He. simpl.
    unfold get_execution_info. simpl. rewrite Hrt. simpl.
    destruct (String.eqb (Py.lower_str w rt) ""); simpl; [done |].
    by rewrite Hv.
Qed.

Lemma get_run_metadata_skip run_id l1 l2 edge :
  extract_edge w run_id edge = Ok None →
  get_run_metadata w (l1 ++ edge :: l2) run_id =
  get_run_metadata w (l1 ++ l2) run_id.
Proof.
  intros Hx. rewrite !get_run_metadata_app, get_run_metadata_cons, Hx. simpl.
  destruct (get_run_metadata w l1 run_id); simpl; [| done].
  by destruct (get_run_metadata w l2 run_id).
Qed.

(** X2: a node touched by another run, or by none, is dropped without error:
    when nothing, something falsy, or a dict whose [lastRunId] differs from
    the run id sits under the derived key, the extractor behaves as if the
    edge were not in the list. *)
Theorem other_run_node_is_dropped run_id l1 l2 e d rt :
  e !! "node" = Some (JDict d) →
  d !! "resourceType" = Some (JStr rt) →
  match d !! (Py.lower_str w rt +:+ "ExecutionInfo") with
  | None => True
  | Some (JDict info) =>
      Py.eq_int (default JNull (info !! "lastRunId")) run_id = false
  | Some v => Py.truthy v = false
  end →
  extract_edge w run_id (JDict e) = Ok None ∧
  get_run_metadata w (l1 ++ JDict e :: l2) run_id =
  get_run_metadata w (l1 ++ l2) run_id.
Proof.
  intros He Hrt Hinfo.
  pose proof (extract_edge_other_run run_id e d rt He Hrt Hinfo) as Hx.
  split; [done | by apply get_run_metadata_skip].
Qed.

(** X3: the run id is compared as a number: a [lastRunId] that arrives as
    text matches no run, not even the one whose digits it spells. *)
Theorem textual_last_run_id_never_matches run_id edges e d rt info s :
  e !! "node" = Some (JDict d) →
  d !! "resourceType" = Some (JStr rt) →
  d !! (Py.lower_str w rt +:+ "ExecutionInfo") = Some (JDict info) →
  info !! "lastRunId" = Some (JStr s) →
  get_run_metadata w (JDict e :: edges) run_id = get_run_metadata w edges run_id.
Proof.
  intros He Hrt Hinfo Hlast.
  apply (get_run_metadata_skip run_id [] edges).
  apply (extract_edge_other_run run_id e d rt He Hrt).
  by rewrite Hinfo, Hlast.
Qed.

(** X4: extraction goes page by page: on two edge lists that both extract,
    the output for their concatenation is the concatenation of the
    outputs; an error in the first list is the error of the whole. *)
Theorem get_run_metadata_concatenates run_id l1 l2 :
  (∀ a b, get_run_metadata w l1 run_id = Ok a →
          get_run_metadata w l2 run_id = Ok b →
          get_run_metadata w (l1 ++ l2) run_id = Ok (a ++ b)) ∧
  (∀ err, get_run_metadata w l1 run_id = Raise err →
          get_run_metadata w (l1 ++ l2) run_id = Raise err).
Proof.
  split.
  - intros a b Ha Hb. by rewrite get_run_metadata_app, Ha, Hb.
  - intros err Herr. by rewrite get_run_metadata_app, Herr.
Qed.

End ExtractorMore.

(** * Further properties of the query client *)

Section ClientMore.
Context (w : world).
Implicit Types (self : DiscoveryApiClient) (st : state) (c cursor : json).

(** After [j] pages with a next page the loop is at its [j+1]-th call;
    whatever holds of the response to any request at that rank holds of
    the one the run gets, and decides how the run ends. *)
Lemma run_query_last_page self query variables limit st j
    (edges_of : nat → list json) (cursor_of : nat → json) fuel
    (P : result (json * list json) → Prop) :
  (∀ i rq, i < j →
     continuing_page (api w (length (posts_of (trace st)) + i) rq)
       (edges_of i) (cursor_of i)) →
  (∀ rq, P (read_page w (api w (length (posts_of (trace st)) + j) rq))) →
  j < fuel →
  ∃ r cs,
    P r ∧ length cs = S j ∧
    match r with
    | Ok (c', more) =>
        Py.truthy c' = false →
        run_query w fuel self query variables limit st =
        (Some (Ok (concat (edges_of <$> seq 0 j) ++ more)),
         states_after w self query variables limit st cs)
    | Raise err =>
        run_query w fuel self query variables limit st =
        (Some (Raise err), states_after w self query variables limit st cs)
    end.
Proof.
  intros Hcont HP Hfuel.
  set (pages := (λ i, (edges_of i, cursor_of i)) <$> seq 0 j).
  assert (length pages = j) as Hlen
    by (unfold pages; by rewrite length_fmap, length_seq).
  assert (pages.*1 = edges_of <$> seq 0 j) as Hes
    by (unfold pages; rewrite <- list_fmap_compose; done).
  set (st_j := states_after w self query variables limit st
                 (take (length pages) (JNull :: pages.*2))).
  set (c_j := default JNull (last pages.*2)).
  exists (read_page w (reply w self query variables limit st_j c_j)),
    (take (length pages) (JNull :: pages.*2) ++ [c_j]).
  assert (length (posts_of (trace st_j)) = length (posts_of (trace st)) + j)
    as Hposts.
  { unfold st_j. rewrite posts_of_states_after_length, length_take,
      length_cons, length_fmap. lia. }
  split; [| split].
  - unfold reply. rewrite Hposts. apply HP.
  - rewrite length_app, length_take, length_cons, length_fmap. simpl. lia.
  - assert (run_query w fuel self query variables limit st =
            run_query_loop w (S (fuel - S j)) self query variables limit c_j
              ([] ++ concat pages.*1) (0 + Z.of_nat (length pages))%Z st_j)
      as Hrun.
    { unfold run_query. replace fuel with (length pages + S (fuel - S j)) at 1
        by lia.
      apply run_query_loop_pages.
      intros i p rq Hp. unfold pages in Hp.
      apply list_lookup_fmap_Some in Hp as (i' & -> & Hi).
      apply lookup_seq in Hi as [-> Hi]. simpl. by apply Hcont. }
    rewrite Hrun, run_query_loop_S. cbv zeta.
    rewrite states_after_snoc. fold st_j. rewrite app_nil_l, Hes.
    destruct (read_page w _) as [[c' more] | err]; [| done].
    by intros ->.
Qed.

(** X5: an API that announces a next page on every answer keeps the client
    going for ever: however many turns the loop is given, it has not
    returned after them, and has made one POST per turn. *)
Theorem run_query_never_returns_on_endless_pages self query variables limit
    st (edges_of : nat → list json) (cursor_of : nat → json) fuel :
  (∀ i rq,
     continuing_page (api w (length (posts_of (trace st)) + i) rq)
       (edges_of i) (cursor_of i)) →
  (run_query w fuel self query variables limit st).1 = None ∧
  length (new_posts st (run_query w fuel self query variables limit st).2)
  = fuel.
Proof.
  intros Hcont.
  set (pages := (λ i, (edges_of i, cursor_of i)) <$> seq 0 fuel).
  assert (length pages = fuel) as Hlen
    by (unfold pages; by rewrite length_fmap, length_seq).
  unfold run_query. replace fuel with (length pages + 0) at 1 2 by lia.
  rewrite run_query_loop_pages.
  - simpl. split; [done |].
    rewrite new_posts_states_after_length, length_take, length_cons,
      length_fmap. lia.
  - intros i p rq Hp. unfold pages in Hp.
    apply list_lookup_fmap_Some in Hp as (i' & -> & Hi).
    apply lookup_seq in Hi as [-> Hi]. simpl. apply Hcont.
Qed.

(** X6: a response that announces a next page but gives a null or empty
    cursor ends the run as a last page would: the edges so far are
    returned and no further page is asked for. *)
Theorem run_query_stops_without_cursor self query variables limit st j
    (edges_of : nat → list json) (cursor_of : nat → json) es fuel :
  (∀ i rq, i < j →
     continuing_page (api w (length (posts_of (trace st)) + i) rq)
       (edges_of i) (cursor_of i)) →
  (∀ rq, stalled_page (api w (length (posts_of (trace st)) + j) rq) es) →
  j < fuel →
  ∃ st',
    run_query w fuel self query variables limit st =
      (Some (Ok (concat (edges_of <$> seq 0 j) ++ es)), st') ∧
    length (new_posts st st') = S j.
Proof.
  intros Hcont Hstall Hfuel.
  destruct (run_query_last_page self query variables limit st j edges_of
              cursor_of fuel
              (λ r, ∃ c, r = Ok (c, es) ∧ Py.truthy c = false))
    as (r & cs & (c & -> & Hc) & Hlen & Hrun); [done | | done |].
  - intros rq.
    destruct (Hstall rq)
      as (Hok & body & page_info & c & Hj & Hparts & Hnext & Hcur & Hc).
    exists c. split; [| done].
    destruct (page_parts_read _ _ _ Hparts) as [Hread Hres].
    unfold read_page, raise_for_status, response_json.
    rewrite Hok, Hj. cbn [mbind result_bind].
    rewrite Hread, Hres, Hnext. cbn [Py.getitem]. by rewrite Hcur.
  - eexists. split; [by apply Hrun |].
    by rewrite new_posts_states_after_length.
Qed.

(** X7: a response with a good status but a bad body fails the whole fetch,
    whatever was fetched before it: a body that is no JSON raises the
    decoding error, a body without ["data"] a [KeyError], and so does a
    [pageInfo] that announces a next page and has no ["endCursor"]. *)
Theorem run_query_malformed_page self query variables limit st j
    (edges_of : nat → list json) (cursor_of : nat → json) fuel :
  (∀ i rq, i < j →
     continuing_page (api w (length (posts_of (trace st)) + i) rq)
       (edges_of i) (cursor_of i)) →
  j < fuel →
  ((∀ rq, let rs := api w (length (posts_of (trace st)) + j) rq in
          ok rs = true ∧ rs_json rs = None) →
   ∃ st', run_query w fuel self query variables limit st =
            (Some (Raise JSONDecodeError), st') ∧
          length (new_posts st st') = S j) ∧
  ((∀ rq, let rs := api w (length (posts_of (trace st)) + j) rq in
          ok rs = true ∧
          ∃ top, rs_json rs = Some (JDict top) ∧ top !! "data" = None) →
   ∃ st', run_query w fuel self query variables limit st =
            (Some (Raise (KeyError "data")), st') ∧
          length (new_posts st st') = S j) ∧
  ((∀ rq, let rs := api w (length (posts_of (trace st)) + j) rq in
          ok rs = true ∧
          ∃ body es page_info,
            rs_json rs = Some body ∧ page_parts body = Some (es, page_info) ∧
            has_next_page page_info = true ∧
            page_info !! "endCursor" = None) →
   ∃ st', run_query w fuel self query variables limit st =
            (Some (Raise (KeyError "endCursor")), st') ∧
          length (new_posts st st') = S j).
Proof.
  intros Hcont Hfuel.
  assert (∀ err,
            (∀ rq, read_page w (api w (length (posts_of (trace st)) + j) rq) =
                   Raise err) →
            ∃ st', run_query w fuel self query variables limit st =
                     (Some (Raise err), st') ∧
                   length (new_posts st st') = S j) as Hraise.
  { intros err Herr.
    destruct (run_query_last_page self query variables limit st j edges_of
                cursor_of fuel (λ r, r = Raise err) Hcont Herr Hfuel)
      as (r & cs & -> & Hlen & Hrun).
    eexists. split; [exact Hrun |].
    by rewrite new_posts_states_after_length. }
  repeat split.
  - intros Hbad. apply Hraise. intros rq. destruct (Hbad rq) as [Hok Hj].
    unfold read_page, raise_for_status, response_json. by rewrite Hok, Hj.
  - intros Hbad. apply Hraise. intros rq.
    destruct (Hbad rq) as (Hok & top & Hj & Hdata).
    unfold read_page, raise_for_status, response_json. rewrite Hok, Hj.
    cbn [mbind result_bind]. unfold _get_next_page_cursor, resources_of.
    cbn [mbind result_bind Py.getitem]. by rewrite Hdata.
  - intros Hbad. apply Hraise. intros rq.
    destruct (Hbad rq) as (Hok & body & es & page_info & Hj & Hparts & Hnext
                           & Hcur).
    destruct (page_parts_read _ _ _ Hparts) as [Hread _].
    unfold read_page, raise_for_status, response_json. rewrite Hok, Hj.
    cbn [mbind result_bind]. rewrite Hread, Hnext. cbn [Py.getitem].
    by rewrite Hcur.
Qed.

Lemma heap_states_after_fresh self query limit st cs :
  heap (states_after w self query None limit st cs) =
  heap st ++ (page_variables self limit <$> cs).
Proof.
  induction cs as [| c cs IH] using rev_ind.
  - simpl. by rewrite app_nil_r.
  - rewrite states_after_snoc, request_state_eq. cbn [heap store_for].
    rewrite IH, fmap_app, app_assoc. set (h := heap st ++ _).
    rewrite lookup_app_r, Nat.sub_diag by done. cbn [lookup default].
    rewrite insert_app_r_alt, Nat.sub_diag by done. simpl.
    by rewrite (right_id_L ∅ (∪)).
Qed.

Lemma posts_of_states_after_prefix self query variables limit st cs :
  posts_of (trace (states_after w self query variables limit st cs)) =
  posts_of (trace st) ++
    new_posts st (states_after w self query variables limit st cs).
Proof.
  induction cs as [| c cs IH] using rev_ind.
  - unfold new_posts. simpl. by rewrite drop_all, app_nil_r.
  - rewrite new_posts_states_after_snoc. cbv zeta.
    rewrite states_after_snoc, posts_of_request_state, IH at 1.
    by rewrite <- app_assoc.
Qed.

Lemma new_posts_states_after_cons self query variables limit st c cs :
  let st1 := request_state w self query variables limit st c in
  new_posts st (states_after w self query variables limit st (c :: cs)) =
  (sent_request self query variables limit st c,
   reply w self query variables limit st c) ::
    new_posts st1 (states_after w self query variables limit st1 cs).
Proof.
  cbv zeta. unfold new_posts at 1.
  change (states_after w self query variables limit st (c :: cs))
    with (states_after w self query variables limit
            (request_state w self query variables limit st c) cs).
  rewrite posts_of_states_after_prefix, posts_of_request_state.
  rewrite <- app_assoc, drop_app_length. done.
Qed.

(** Every POST of a sequence of calls is the one a call builds. *)
Lemma new_posts_states_after_sent self query variables limit st cs p :
  p ∈ new_posts st (states_after w self query variables limit st cs) →
  ∃ st_i c,
    p.1 = sent_request self query variables limit st_i c ∧
    valid_ref variables st_i = valid_ref variables st.
Proof.
  revert p. induction cs as [| c cs IH] using rev_ind; intros p.
  - unfold new_posts, states_after. simpl. rewrite drop_all.
    by intros ?%elem_of_nil.
  - rewrite new_posts_states_after_snoc. cbv zeta.
    intros [Hp | ->%list_elem_of_singleton]%elem_of_app; [by apply IH |].
    eexists _, c. split; [done |]. apply valid_ref_states_after.
Qed.

(** X8: called without a mapping, [run_query] makes itself a new one for
    each request: what was in the store stays as it was, and the store
    grows by one mapping per POST, holding that request's four variables
    and nothing else. *)
Theorem run_query_without_variables_allocates self query limit st fuel :
  let st' := (run_query w fuel self query None limit st).2 in
  take (length (heap st)) (heap st') = heap st ∧
  length (heap st') = length (heap st) + length (new_posts st st') ∧
  (page_variables self limit <$> omap (λ p, after_of p.1) (new_posts st st'))
  = drop (length (heap st)) (heap st') ∧
  ∀ p, p ∈ new_posts st st' →
       ∃ c, variables_of p.1 = Some (page_variables self limit c).
Proof.
  cbv zeta. destruct fuel as [| fuel].
  { unfold new_posts. simpl. rewrite take_ge, !drop_all by done. simpl.
    repeat split; [lia |]. by intros p ?%elem_of_nil. }
  unfold run_query.
  destruct (run_query_loop_state w self query None limit fuel JNull [] 0%Z st)
    as (cs & -> & _).
  rewrite heap_states_after_fresh, new_posts_states_after_length.
  rewrite take_app_length, drop_app_length, length_app, length_fmap.
  repeat split.
  - f_equal.
    pose proof (new_posts_states_after_cursors w self query None limit st
                  (JNull :: cs) eq_refl) as Hcs.
    rewrite list_fmap_compose in Hcs.
    set (ps := new_posts _ _) in *. clearbody ps.
    revert Hcs. generalize (JNull :: cs). clear.
    induction ps as [| p ps IH]; intros [| c l] Hl; try done.
    simpl in *. injection Hl as Hp Hl. rewrite Hp. simpl. f_equal.
    by apply IH.
  - intros p (st_i & c & -> & _)%new_posts_states_after_sent.
    exists c. rewrite variables_of_sent_request, sent_variables_valid by done.
    simpl. by rewrite (right_id_L ∅ (∪)).
Qed.

(** X9: every POST of a run goes to the client's URL as a JSON body made of
    the query and the variables, with the environment id and the page
    size (as both [first] and [limit]) among them, under the two headers
    the client sets. *)
Theorem run_query_request_shape self query variables limit st fuel p :
  valid_ref variables st = true →
  p ∈ new_posts st (run_query w fuel self query variables limit st).2 →
  rq_url p.1 = url self ∧
  rq_headers p.1 = [("Authorization", "Bearer " +:+ token self);
                    ("content-type", "application/json")] ∧
  ∃ vars,
    rq_json p.1 =
      JDict (<["query" := JStr query]> (<["variables" := JDict vars]> ∅)) ∧
    vars !! "environmentId" = Some (environment_id self) ∧
    vars !! "first" = Some (JInt limit) ∧
    vars !! "limit" = Some (JInt limit) ∧
    is_Some (vars !! "after").
Proof.
  intros Hv Hp. destruct fuel as [| fuel].
  { unfold new_posts in Hp. simpl in Hp. rewrite drop_all in Hp.
    by apply elem_of_nil in Hp. }
  unfold run_query in Hp.
  destruct (run_query_loop_state w self query variables limit fuel
              JNull [] 0%Z st) as (cs & Hcs & _).
  rewrite Hcs in Hp.
  apply new_posts_states_after_sent in Hp as (st_i & c & -> & Hvi).
  split; [done |]. split; [done |].
  eexists. split; [done |].
  rewrite sent_variables_valid by congruence.
  rewrite !page_variables_lookup. by repeat split.
Qed.

Lemma read_page_Ok_inv rs c' more :
  read_page w rs = Ok (c', more) →
  ok rs = true ∧
  ∃ body, rs_json rs = Some body ∧ _get_next_page_cursor body = Ok c'.
Proof.
  unfold read_page, raise_for_status, response_json.
  destruct (ok rs); [| done]. cbn [mbind result_bind].
  destruct (rs_json rs) as [body |]; [| done]. cbn [mbind result_bind].
  destruct (_get_next_page_cursor body) as [c |] eqn:Hcur; [| done].
  cbn [mbind result_bind].
  destruct (_extract_query_results body) as [results |]; [| done].
  cbn [mbind result_bind].
  destruct (iterate w results); [| done]. cbn [mbind result_bind].
  intros [= -> _]. split; [done |]. by exists body.
Qed.

Lemma run_query_loop_chain self query variables limit fuel :
  ∀ c acc page st,
  ∃ cs,
    (run_query_loop w (S fuel) self query variables limit c acc page st).2 =
    states_after w self query variables limit st (c :: cs) ∧
    cursor_chain w self query variables limit st c cs.
Proof.
  induction fuel as [| fuel IH]; intros c acc page st;
    rewrite run_query_loop_S; cbv zeta;
    destruct (read_page w _) as [[c' more] | err] eqn:Hread;
    try (by exists []);
    destruct (Py.truthy c') eqn:Hc'; cbn [negb];
    try (by exists []).
  destruct (IH c' (acc ++ more) (page + 1)%Z
              (request_state w self query variables limit st c))
    as (cs & Hcs & Hchain).
  exists (c' :: cs). split; [by rewrite Hcs |].
  simpl. split; [by exists more |]. done.
Qed.

Lemma cursor_chain_posts self query variables limit cs :
  ∀ st c i p p',
    valid_ref variables st = true →
    cursor_chain w self query variables limit st c cs →
    new_posts st (states_after w self query variables limit st (c :: cs))
      !! i = Some p →
    new_posts st (states_after w self query variables limit st (c :: cs))
      !! S i = Some p' →
    ∃ body c',
      ok p.2 = true ∧ rs_json p.2 = Some body ∧
      _get_next_page_cursor body = Ok c' ∧ Py.truthy c' = true ∧
      after_of p'.1 = Some c'.
Proof.
  induction cs as [| c' cs IH]; intros st c i p p' Hv Hchain;
    rewrite new_posts_states_after_cons; cbv zeta.
  - unfold new_posts, states_after. simpl. by rewrite drop_all.
  - destruct Hchain as ((more & Hread) & Hc' & Hchain).
    assert (valid_ref variables
              (request_state w self query variables limit st c) = true)
      as Hv1 by by rewrite valid_ref_request_state.
    destruct i as [| i].
    + rewrite (new_posts_states_after_cons self query variables limit
                 (request_state w self query variables limit st c) c' cs).
      cbv zeta. cbn [lookup list_lookup]. intros [= <-] [= <-].
      destruct (read_page_Ok_inv _ _ _ Hread) as (Hok & body & Hbody & Hcur).
      exists body, c'. repeat split; try done.
      by apply after_of_sent_request.
    + cbn [lookup list_lookup]. by apply IH.
Qed.

(** X10: whatever the API answers, the requests of a run form a chain: the
    first carries no cursor, and each later one carries the cursor that
    the response to the one before it named as [endCursor], that response
    having been a success announcing a next page. *)
Theorem run_query_threads_cursors self query variables limit st fuel :
  valid_ref variables st = true →
  let posts :=
    new_posts st (run_query w fuel self query variables limit st).2 in
  (∀ p, posts !! 0 = Some p → after_of p.1 = Some JNull) ∧
  (∀ i p p', posts !! i = Some p → posts !! S i = Some p' →
     ∃ body c',
       ok p.2 = true ∧ rs_json p.2 = Some body ∧
       _get_next_page_cursor body = Ok c' ∧ Py.truthy c' = true ∧
       after_of p'.1 = Some c').
Proof.
  intros Hv. cbv zeta. destruct fuel as [| fuel].
  { unfold new_posts. simpl. rewrite drop_all. by split. }
  unfold run_query.
  destruct (run_query_loop_chain self query variables limit fuel
              JNull [] 0%Z st) as (cs & -> & Hchain).
  split.
  - intros p. rewrite new_posts_states_after_cons. cbv zeta.
    cbn [lookup list_lookup]. intros [= <-]. by apply after_of_sent_request.
  - intros i p p'. by apply cursor_chain_posts.
Qed.

End ClientMore.

(** * Further properties of the orchestrator *)

Set Warnings "-clear-no-such-hyp".

Section HandlerMore.
Context (w : world).
Implicit Types (st : state) (request : Request).

Lemma string_eqb_empty (s : string) : String.eqb s "" = false ↔ s ≠ "".
Proof. by destruct (String.eqb_spec s ""). Qed.

(** X11: the signature check never changes the state.  It passes exactly
    on a request whose [authorization] header is plain ASCII and is the
    digest of its body under the configured secret, both being present and
    not empty.  It answers 400 when either is missing or empty; when both
    are there and the digest is computed, it answers 401 on an ASCII
    header that differs from the digest, and the comparison's [TypeError]
    on a header with a character outside ASCII.  An error of the check is
    one of these three or the error of the digest computation. *)
Theorem verify_signature_decides request st :
  (verify_signature w request st).2 = st ∧
  ((verify_signature w request st).1 = Some (Ok tt) ↔
   signature_valid w request) ∧
  (request_authorization request = None ∨
   request_authorization request = Some "" ∨
   env w !! "DBT_CLOUD_WEBHOOK_SECRET" = None ∨
   env w !! "DBT_CLOUD_WEBHOOK_SECRET" = Some "" →
   (verify_signature w request st).1 =
     Some (Raise (HTTPException 400 "Missing signature or secret"))) ∧
  (∀ signature secret computed,
     request_authorization request = Some signature →
     env w !! "DBT_CLOUD_WEBHOOK_SECRET" = Some secret →
     signature ≠ "" → secret ≠ "" →
     hmac_sha256_hexdigest w secret (request_body request) = Ok computed →
     (Py.is_ascii computed = true → Py.is_ascii signature = true →
      computed ≠ signature →
      (verify_signature w request st).1 =
        Some (Raise (HTTPException 401 "Invalid signature"))) ∧
     (Py.is_ascii signature = false →
      (verify_signature w request st).1 =
        Some (Raise (TypeError
          "comparing strings with non-ASCII characters is not supported")))) ∧
  (∀ err, (verify_signature w request st).1 = Some (Raise err) →
     err = HTTPException 400 "Missing signature or secret" ∨
     err = HTTPException 401 "Invalid signature" ∨
     err = TypeError
             "comparing strings with non-ASCII characters is not supported" ∨
     ∃ secret,
       env w !! "DBT_CLOUD_WEBHOOK_SECRET" = Some secret ∧
       hmac_sha256_hexdigest w secret (request_body request) = Raise err).
Proof.
  rewrite verify_signature_state. cbn [fst snd]. split; [done |].
  unfold signature_valid, verify_signature.
  destruct (request_authorization request) as [signature |];
    destruct (env w !! "DBT_CLOUD_WEBHOOK_SECRET") as [secret |];
    cbn [fst raise lift]; [| naive_solver..].
  cbn [Py.truthy]. rewrite !negb_involutive.
  destruct (String.eqb_spec signature "") as [-> | Hsig];
    [| destruct (String.eqb_spec secret "") as [-> | Hsec]];
    cbn [orb fst raise lift]; [naive_solver.. |].
  cbv [mbind M_bind lift].
  assert (Hpresent : ∀ X : Prop,
            Some signature = None ∨ Some signature = Some "" ∨
            Some secret = None ∨ Some secret = Some "" → X).
  { intros X [[=] | [[= ->] | [[=] | [= ->]]]]; done. }
  destruct (hmac_sha256_hexdigest w secret (request_body request))
    as [computed | herr] eqn:Hmac; cbn [fst].
  2: { split; [| split; [apply Hpresent | split]].
       - split; [done |].
         intros (s0 & k0 & [= <-] & [= <-] & _ & _ & _ & H). congruence.
       - intros s0 k0 c [= <-] [= <-] _ _ H. congruence.
       - intros err [= <-]. do 3 right. by exists secret. }
  unfold Py.compare_digest.
  destruct (Py.is_ascii computed) eqn:Hc;
    destruct (Py.is_ascii signature) eqn:Hs; cbn [andb fst raise].
  2-4: split; [| split; [apply Hpresent | split]];
    [ split; [done |];
      intros (s0 & k0 & [= <-] & [= <-] & _ & _ & Ha & H); congruence
    | intros s0 k0 c [= <-] [= <-] _ _ H; split; intros; congruence
    | intros err [= <-]; by do 2 right; left ].
  destruct (String.eqb_spec computed signature) as [Heq | Hne];
    cbn [negb fst raise lift mret M_ret];
    (split; [| split; [apply Hpresent | split]]).
  - split; [| done]. intros _. exists signature, secret. by subst.
  - intros s0 k0 c [= <-] [= <-] _ _ H; split; intros; congruence.
  - intros err [=].
  - split; [done |].
    intros (s0 & k0 & [= <-] & [= <-] & _ & _ & Ha & H). congruence.
  - intros s0 k0 c [= <-] [= <-] _ _ H; split; intros; congruence.
  - intros err [= <-]. by right; left.
Qed.

(** X12: a request that fails the signature check is turned away with the
    check's error before anything is logged, fetched or submitted. *)
Theorem unverified_delivery_has_no_effect fuel request st err :
  (verify_signature w request st).1 = Some (Raise err) →
  webhook_handler w fuel request st = (Some (Raise err), st).
Proof.
  rewrite verify_signature_state. cbn [fst]. intros Hsig.
  unfold webhook_handler. cbv [mbind M_bind].
  by rewrite verify_signature_state, Hsig.
Qed.

(** On an accepted delivery the handler is the fetch followed by the
    dispatch of what was fetched. *)
Lemma webhook_handler_accepted fuel request payload data tok st :
  accepted w request payload data tok →
  webhook_handler w fuel request st =
  match run_query w fuel (handler_client w data tok) QUERY
          (Some (length (heap st))) 500 (fetch_state st payload) with
  | (Some (Ok edges), st2) =>
      dispatch w payload data (handler_client w data tok) edges st2
  | (Some (Raise err), st2) =>
      (Some (Raise err),
       {| trace := trace st2 ++ [EvLog (LogErrorRunMetadata err)];
          heap := heap st2 |})
  | (None, st2) => (None, st2)
  end.
Proof.
  intros (Hsig & Hjson & Hdata & [et Het] & [wn Hwn] & Hfields & Htok).
  repeat match goal with
         | H : Forall _ (_ :: _) |- _ =>
             apply Forall_cons in H as [[? ?] H]
         end.
  unfold webhook_handler, DiscoveryApiClient_init, dispatch, log_item.
  cbv [mbind M_bind]. rewrite verify_signature_state, Hsig, Hjson.
  run_M. cbv [Py.getitem]. rewrite Hdata, Het. cbn [ne_member].
  unfold handler_client, fetch_state.
  repeat match goal with
         | H : data !! _ = Some _ |- _ => rewrite H
         end.
  rewrite Hwn, Htok. run_M. cbn [default from_option id url].
  destruct (run_query _ _ _ _ _ _ _) as [[[edges | err] |] st2]; try done.
  destruct (PyInt.int w _); [| done].
  destruct (get_run_metadata w edges _); [| done].
  by destruct (submit_batches _ _ _ _) as [[[] |] ?].
Qed.

Lemma posts_of_submit tr b r : posts_of (tr ++ [EvSubmit b r]) = posts_of tr.
Proof. rewrite posts_of_app. apply app_nil_r. Qed.

Lemma submits_of_submit tr b r :
  submits_of (tr ++ [EvSubmit b r]) = submits_of tr ++ [b].
Proof. by rewrite submits_of_app. Qed.

(** Submitting makes no POST to the metadata API and leaves the store
    alone, however the submissions go. *)
Lemma submit_batches_frame batches :
  ∀ responses st,
    posts_of (trace (submit_batches w batches responses st).2) =
      posts_of (trace st) ∧
    heap (submit_batches w batches responses st).2 = heap st.
Proof.
  induction batches as [| b batches IH]; intros responses st; [done |].
  cbn [submit_batches]. unfold submit_log. run_M.
  destruct (datadog w _ b) as [r | err]; cbn [fst snd trace heap].
  - destruct (IH (responses ++ [r])
                {| trace := (trace st ++ [EvSubmit b (Ok r)]) ++
                            [EvLog (LogSubmission r)];
                   heap := heap st |}) as [Hposts Hheap].
    cbn [trace heap] in *.
    rewrite posts_of_log, posts_of_submit in Hposts.
    by destruct (submit_batches _ _ _ _) as [[[] |] ?].
  - by rewrite posts_of_submit.
Qed.

(** As long as the ingestion client answers, every batch is submitted,
    in order, and a response is collected for each. *)
Lemma submit_batches_all batches :
  ∀ responses st,
    (∀ i b, batches !! i = Some b →
       is_ok (datadog w (length (submits_of (trace st)) + i) b) = true) →
    ∃ rs st',
      submit_batches w batches responses st = (Some (Ok rs), st') ∧
      submits_of (trace st') = submits_of (trace st) ++ batches ∧
      length rs = length responses + length batches.
Proof.
  induction batches as [| b batches IH]; intros responses st Hok.
  - exists responses, st. simpl. by rewrite app_nil_r, Nat.add_0_r.
  - cbn [submit_batches]. unfold submit_log. run_M.
    pose proof (Hok 0 b eq_refl) as H0. rewrite Nat.add_0_r in H0.
    destruct (datadog w _ b) as [r | err]; [| done].
    destruct (IH (responses ++ [r])
                {| trace := (trace st ++ [EvSubmit b (Ok r)]) ++
                            [EvLog (LogSubmission r)];
                   heap := heap st |}) as (rs & st' & Hrun & Hsub & Hlen).
    { intros i b' Hb'. cbn [trace].
      rewrite submits_of_log, submits_of_submit, length_app. simpl.
      replace (length (submits_of (trace st)) + 1 + i)
        with (length (submits_of (trace st)) + S i) by lia.
      by apply Hok. }
    exists rs, st'. rewrite Hrun. split; [done |]. split.
    + rewrite Hsub. cbn [trace].
      by rewrite submits_of_log, submits_of_submit, <- app_assoc.
    + rewrite Hlen, length_app. simpl. lia.
Qed.

(** The first submission that raises ends the loop: the batches before
    it and the failing one have gone out, those after it never do. *)
Lemma submit_batches_raises sent :
  ∀ bad rest err responses st,
    (∀ i b, sent !! i = Some b →
       is_ok (datadog w (length (submits_of (trace st)) + i) b) = true) →
    datadog w (length (submits_of (trace st)) + length sent) bad = Raise err →
    ∃ st',
      submit_batches w (sent ++ bad :: rest) responses st =
        (Some (Raise err), st') ∧
      submits_of (trace st') = submits_of (trace st) ++ sent ++ [bad].
Proof.
  induction sent as [| b sent IH]; intros bad rest err responses st Hok Hbad.
  - simpl in *. rewrite Nat.add_0_r in Hbad.
    unfold submit_log. run_M. rewrite Hbad. eexists. split; [done |].
    cbn [trace]. by rewrite submits_of_submit.
  - cbn [app submit_batches]. unfold submit_log. run_M.
    pose proof (Hok 0 b eq_refl) as H0. rewrite Nat.add_0_r in H0.
    destruct (datadog w _ b) as [r | err0]; [| done].
    destruct (IH bad rest err (responses ++ [r])
                {| trace := (trace st ++ [EvSubmit b (Ok r)]) ++
                            [EvLog (LogSubmission r)];
                   heap := heap st |}) as (st' & Hrun & Hsub).
    { intros i b' Hb'. cbn [trace].
      rewrite submits_of_log, submits_of_submit, length_app. simpl.
      replace (length (submits_of (trace st)) + 1 + i)
        with (length (submits_of (trace st)) + S i) by lia.
      by apply Hok. }
    { cbn [trace]. rewrite submits_of_log, submits_of_submit, length_app.
      simpl in *.
      by replace (length (submits_of (trace st)) + 1 + length sent)
        with (length (submits_of (trace st)) + S (length sent)) by lia. }
    exists st'. rewrite Hrun. split; [done |]. rewrite Hsub. cbn [trace].
    by rewrite submits_of_log, submits_of_submit, <- app_assoc.
Qed.

Lemma getitem_Ok_inv (v : json) (k : string) (x : json) :
  Py.getitem v k = Ok x → ∃ d, v = JDict d ∧ d !! k = Some x.
Proof.
  destruct v as [| | | | | |d]; try done. simpl.
  destruct (d !! k) as [y |] eqn:Hk; [| done]. intros [= <-]. by exists d.
Qed.

(** X13: nothing goes out for a delivery that is not accepted: if an
    invocation makes a POST or submits a batch, then the signature
    verified, the body was a JSON object with all the fields the handler
    reads, and the service token was configured. *)
Theorem effects_only_for_accepted_delivery fuel request st :
  new_posts st (webhook_handler w fuel request st).2 ≠ [] ∨
  new_submits st (webhook_handler w fuel request st).2 ≠ [] →
  ∃ payload data tok, accepted w request payload data tok.
Proof.
  intros Heffect.
  destruct (env w !! "DBT_CLOUD_SERVICE_TOKEN") as [tok |] eqn:Htok.
  2: { destruct (webhook_handler_no_token w fuel request st Htok)
         as (Hp & Hs & _).
       destruct Heffect; contradiction. }
  revert Heffect. unfold webhook_handler, DiscoveryApiClient_init.
  cbv [mbind M_bind]. rewrite verify_signature_state, Htok.
  destruct ((verify_signature w request initial_state).1)
    as [[[] | err] |] eqn:Hsig.
  2, 3: unfold new_posts, new_submits; cbn [snd]; rewrite !drop_all;
    intros []; done.
  run_M. cbn [ne_member].
  repeat match goal with
         | |- context [match ?x with _ => _ end] =>
             lazymatch x with
             | context [match _ with _ => _ end] => fail
             | context [run_query] => fail
             | context [PyInt.int] => fail
             | _ => destruct x eqn:?
             end
         end;
    try (unfold new_posts, new_submits; cbn [fst snd trace];
         rewrite ?posts_of_log, ?submits_of_log, !drop_all; intros []; done).
  intros _.
  repeat match goal with
         | H : Py.getitem ?v _ = Ok _ |- _ =>
             apply getitem_Ok_inv in H as (? & ? & ?); simplify_eq
         end.
  eexists _, _, tok. unfold accepted.
  repeat split; try done; try (by eexists).
  repeat constructor; by eexists.
Qed.

(** X14: an accepted delivery whose fetch and extraction go through and whose
    submissions are all answered ends in success: the log items, one per
    extracted node and in their order, go out in the batches the batcher
    makes of them, and nothing else is sent. *)
Theorem delivery_dispatches_one_log_per_node fuel request payload data tok st
    edges st2 run_id nodes :
  accepted w request payload data tok →
  run_query w fuel (handler_client w data tok) QUERY
    (Some (length (heap st))) 500 (fetch_state st payload) =
    (Some (Ok edges), st2) →
  PyInt.int w (default JNull (data !! "runId")) = Ok run_id →
  get_run_metadata w edges run_id = Ok nodes →
  (∀ i b, is_ok (datadog w (length (submits_of (trace st2)) + i) b) = true) →
  ∃ st3,
    webhook_handler w fuel request st =
      (Some (Ok (JDict (<["status" := JStr "success"]> ∅))), st3) ∧
    new_submits st2 st3 =
      chunker (log_item w payload data (handler_client w data tok) <$> nodes) ∧
    concat (new_submits st2 st3) =
      log_item w payload data (handler_client w data tok) <$> nodes ∧
    posts_of (trace st3) = posts_of (trace st2).
Proof.
  intros Hacc Hrun Hint Hnodes Hok.
  rewrite (webhook_handler_accepted fuel request payload data tok st Hacc), Hrun.
  unfold dispatch. run_M. rewrite Hint, Hnodes.
  set (batches := chunker _).
  destruct (submit_batches_all batches [] st2) as (rs & st3 & Hsub & Hs & _);
    [by intros; apply Hok |].
  pose proof (submit_batches_frame batches [] st2) as [Hposts _].
  rewrite Hsub in Hposts |- *. cbn [snd] in Hposts.
  exists st3. split; [done |].
  assert (new_submits st2 st3 = batches) as Hnew
    by (unfold new_submits; by rewrite Hs, drop_app_length).
  rewrite Hnew. repeat split; [| done].
  unfold batches, chunker. apply chunker_sized_concat.
  unfold DATADOG_MAX_LIST_SIZE. lia.
Qed.

(** X15: a run that touched none of the environment's resources is no error:
    with nothing extracted the handler answers success straight after the
    fetch, without calling the ingestion client at all. *)
Theorem delivery_without_matches_succeeds fuel request payload data tok st
    edges st2 run_id :
  accepted w request payload data tok →
  run_query w fuel (handler_client w data tok) QUERY
    (Some (length (heap st))) 500 (fetch_state st payload) =
    (Some (Ok edges), st2) →
  PyInt.int w (default JNull (data !! "runId")) = Ok run_id →
  get_run_metadata w edges run_id = Ok [] →
  webhook_handler w fuel request st =
  (Some (Ok (JDict (<["status" := JStr "success"]> ∅))), st2).
Proof.
  intros Hacc Hrun Hint Hnodes.
  rewrite (webhook_handler_accepted fuel request payload data tok st Hacc), Hrun.
  unfold dispatch. run_M. by rewrite Hint, Hnodes.
Qed.

(** X16: the run id is converted, and the edges are looked at, only once the
    whole fetch is over: a run id that is no integer, or an edge the
    extractor cannot read, raises then, with every page already fetched
    and nothing logged about the error or submitted. *)
Theorem late_errors_follow_the_fetch fuel request payload data tok st
    edges st2 :
  accepted w request payload data tok →
  run_query w fuel (handler_client w data tok) QUERY
    (Some (length (heap st))) 500 (fetch_state st payload) =
    (Some (Ok edges), st2) →
  (∀ err, PyInt.int w (default JNull (data !! "runId")) = Raise err →
     webhook_handler w fuel request st = (Some (Raise err), st2)) ∧
  (∀ run_id err,
     PyInt.int w (default JNull (data !! "runId")) = Ok run_id →
     get_run_metadata w edges run_id = Raise err →
     webhook_handler w fuel request st = (Some (Raise err), st2)).
Proof.
  intros Hacc Hrun.
  rewrite (webhook_handler_accepted fuel request payload data tok st Hacc), Hrun.
  unfold dispatch. run_M. split.
  - intros err Hint. by rewrite Hint.
  - intros run_id err Hint Hnodes. by rewrite Hint, Hnodes.
Qed.

(** X17: a submission that raises ends the invocation with its error, the
    batches before it delivered and those after it never sent. *)
Theorem failed_submission_stops_dispatch fuel request payload data tok st
    edges st2 run_id nodes sent bad rest err :
  accepted w request payload data tok →
  run_query w fuel (handler_client w data tok) QUERY
    (Some (length (heap st))) 500 (fetch_state st payload) =
    (Some (Ok edges), st2) →
  PyInt.int w (default JNull (data !! "runId")) = Ok run_id →
  get_run_metadata w edges run_id = Ok nodes →
  chunker (log_item w payload data (handler_client w data tok) <$> nodes) =
    sent ++ bad :: rest →
  (∀ i b, sent !! i = Some b →
     is_ok (datadog w (length (submits_of (trace st2)) + i) b) = true) →
  datadog w (length (submits_of (trace st2)) + length sent) bad = Raise err →
  ∃ st3,
    webhook_handler w fuel request st = (Some (Raise err), st3) ∧
    new_submits st2 st3 = sent ++ [bad].
Proof.
  intros Hacc Hrun Hint Hnodes Hbatches Hok Hbad.
  rewrite (webhook_handler_accepted fuel request payload data tok st Hacc), Hrun.
  unfold dispatch. run_M. rewrite Hint, Hnodes, Hbatches.
  destruct (submit_batches_raises sent bad rest err [] st2 Hok Hbad)
    as (st3 & Hsub & Hs).
  rewrite Hsub. exists st3. split; [done |].
  unfold new_submits. by rewrite Hs, drop_app_length.
Qed.

(** X18: every request the handler makes for an accepted delivery asks the
    configured endpoint, with the handler's query, for the four node
    types of the payload's environment, 500 to a page. *)
Theorem handler_requests_all_node_types fuel request payload data tok st p :
  accepted w request payload data tok →
  p ∈ new_posts st (webhook_handler w fuel request st).2 →
  rq_url p.1 = default DEFAULT_URL (env w !! "DBT_CLOUD_METADATA_URL") ∧
  ∃ vars,
    rq_json p.1 =
      JDict (<["query" := JStr QUERY]> (<["variables" := JDict vars]> ∅)) ∧
    vars !! "filter" =
      Some (JDict (<["types" := JList (JStr <$> NODE_TYPES)]> ∅)) ∧
    vars !! "first" = Some (JInt 500) ∧
    vars !! "environmentId" = data !! "environmentId".
Proof.
  intros Hacc Hp.
  assert (new_posts st (webhook_handler w fuel request st).2 =
          new_posts (fetch_state st payload)
            (run_query w fuel (handler_client w data tok) QUERY
               (Some (length (heap st))) 500 (fetch_state st payload)).2)
    as Hposts.
  { rewrite (webhook_handler_accepted fuel request payload data tok st Hacc).
    assert (posts_of (trace (fetch_state st payload)) = posts_of (trace st))
      as Hfetch by apply posts_of_log.
    unfold new_posts. rewrite Hfetch. f_equal.
    destruct (run_query _ _ _ _ _ _ _) as [[[edges | err] |] st2];
      cbn [snd trace]; [| by rewrite posts_of_log | done].
    unfold dispatch. run_M.
    destruct (PyInt.int w _); [| done].
    destruct (get_run_metadata w edges _) as [nodes |]; [| done].
    pose proof (submit_batches_frame
                  (chunker (log_item w payload data
                              (handler_client w data tok) <$> nodes))
                  [] st2) as [Hframe _].
    destruct (submit_batches _ _ _ _) as [[[] |] st3]; cbn [snd] in *;
      by rewrite Hframe. }
  rewrite Hposts in Hp. clear Hposts.
  assert (valid_ref (Some (length (heap st))) (fetch_state st payload) = true)
    as Hv.
  { unfold valid_ref, fetch_state. cbn [heap]. apply bool_decide_eq_true.
    rewrite length_app. simpl. lia. }
  destruct fuel as [| fuel].
  { unfold new_posts in Hp. simpl in Hp. rewrite drop_all in Hp.
    by apply elem_of_nil in Hp. }
  unfold run_query in Hp.
  destruct (run_query_loop_state w (handler_client w data tok) QUERY
              (Some (length (heap st))) 500 fuel JNull [] 0%Z
              (fetch_state st payload)) as (cs & Hcs & _).
  rewrite Hcs in Hp.
  assert (heap (fetch_state st payload) !! length (heap st) =
          Some (filter_variables)) as Hheap.
  { unfold fetch_state. cbn [heap].
    by rewrite lookup_app_r, Nat.sub_diag by done. }
  destruct (new_posts_states_after_variables w (handler_client w data tok)
              QUERY (length (heap st)) 500 (fetch_state st payload)
              filter_variables (JNull :: cs) p Hheap Hp) as (c' & Hvars).
  apply new_posts_states_after_sent in Hp as (st_i & c & Hp1 & Hvi).
  rewrite Hp1 in Hvars |- *. split; [done |].
  rewrite variables_of_sent_request in Hvars. injection Hvars as Hvars.
  eexists. split; [done |]. rewrite Hvars, !page_variables_lookup.
  cbn [decide]. repeat case_decide; try done.
  repeat split; try done.
  destruct Hacc as (_ & _ & _ & _ & _ & Hfields & _).
  repeat (apply Forall_cons in Hfields as [? Hfields]).
  unfold handler_client. cbn [environment_id].
  by destruct (data !! "environmentId").
Qed.

End HandlerMore.

(** * Further scenarios *)

(** The sample model node belongs to run 55 and is in the output. *)
Lemma in_run_node_is_extracted_witness :
  ∃ out, get_run_metadata Sample.two_pages Sample.edges 55 = Ok out ∧
    JDict (<["executionInfo" := Sample.obj [("lastRunId", JInt 55)]]>
             (delete "modelExecutionInfo" Sample.model_node)) ∈ out.
Proof.
  destruct (get_run_metadata Sample.two_pages Sample.edges 55) as [out |] eqn:Hout;
    [| vm_compute in Hout; discriminate Hout].
  exists out. split; [reflexivity |].
  apply (in_run_node_is_extracted Sample.two_pages Sample.edges 55 out
           (Sample.edge_of Sample.model_node) Sample.model_node "Model"
           (list_to_map [("lastRunId", JInt 55)]) (JInt 55) Hout).
  - apply list_elem_of_here.
  - vm_compute; reflexivity.
  - vm_compute; reflexivity.
  - discriminate.
  - vm_compute; reflexivity.
  - vm_compute; reflexivity.
  - vm_compute; reflexivity.
Defined.

(** The sample test node belongs to run 54: dropped for run 55. *)
Lemma other_run_node_is_dropped_witness :
  get_run_metadata Sample.two_pages
    ([JDict (Sample.edge_of Sample.model_node)] ++
     JDict (Sample.edge_of Sample.test_node) :: []) 55 =
  get_run_metadata Sample.two_pages ([JDict (Sample.edge_of Sample.model_node)] ++ []) 55.
Proof.
  apply (other_run_node_is_dropped Sample.two_pages 55 _ _ (Sample.edge_of Sample.test_node)
           Sample.test_node "Test").
  - vm_compute; reflexivity.
  - vm_compute; reflexivity.
  - vm_compute; reflexivity.
Defined.

(** The text ["55"] is not the run 55. *)
Lemma textual_last_run_id_never_matches_witness :
  get_run_metadata Sample.two_pages
    (JDict (Sample.edge_of SampleMore.textual_node) :: Sample.edges) 55 =
  get_run_metadata Sample.two_pages Sample.edges 55.
Proof.
  apply (textual_last_run_id_never_matches Sample.two_pages 55 Sample.edges
           (Sample.edge_of SampleMore.textual_node) SampleMore.textual_node
           "Model" (list_to_map [("lastRunId", JStr "55")]) "55").
  - vm_compute; reflexivity.
  - vm_compute; reflexivity.
  - vm_compute; reflexivity.
  - vm_compute; reflexivity.
Defined.

(** Two one-edge pages, extracted apart and together. *)
Lemma get_run_metadata_concatenates_witness :
  ∃ a b,
    get_run_metadata Sample.two_pages ([JDict (Sample.edge_of Sample.model_node)] ++
                      [JDict (Sample.edge_of Sample.test_node)]) 55 =
    Ok (a ++ b) ∧ length a = 1 ∧ length b = 0.
Proof.
  destruct (get_run_metadata_concatenates Sample.two_pages 55
              [JDict (Sample.edge_of Sample.model_node)]
              [JDict (Sample.edge_of Sample.test_node)]) as [Hcat _].
  eexists _, _. split; [apply Hcat; vm_compute; reflexivity |].
  split; reflexivity.
Defined.

(** The endless API after seven turns. *)
Lemma run_query_never_returns_on_endless_pages_witness :
  (run_query SampleMore.endless 7 Sample.client QUERY None 500
     initial_state).1 = None ∧
  length (new_posts initial_state
            (run_query SampleMore.endless 7 Sample.client QUERY None 500
               initial_state).2) = 7.
Proof.
  apply (run_query_never_returns_on_endless_pages SampleMore.endless
           Sample.client QUERY None 500 initial_state
           (λ _, [JDict (Sample.edge_of Sample.model_node)])
           (λ _, JStr "c1") 7).
  intros i rq. concrete_page.
Defined.

(** A next page announced with a null cursor: one request, one page. *)
Lemma run_query_stops_without_cursor_witness :
  ∃ st',
    run_query SampleMore.cursorless 3 Sample.client QUERY None 500
      initial_state =
      (Some (Ok [JDict (Sample.edge_of Sample.model_node)]), st') ∧
    length (new_posts initial_state st') = 1.
Proof.
  apply (run_query_stops_without_cursor SampleMore.cursorless Sample.client
           QUERY None 500 initial_state 0 (λ _, []) (λ _, JNull)
           [JDict (Sample.edge_of Sample.model_node)] 3).
  - intros i rq Hi. lia.
  - intros rq. split; [reflexivity |].
    eexists _, _, _. split; [reflexivity |].
    split; [vm_compute; reflexivity |].
    repeat split; vm_compute; reflexivity.
  - lia.
Defined.

(** A 200 with no JSON in it, and a 200 with an empty object. *)
Lemma run_query_malformed_page_witness :
  (∃ st', run_query (SampleMore.answering None) 3 Sample.client QUERY None
            500 initial_state = (Some (Raise JSONDecodeError), st')) ∧
  (∃ st', run_query (SampleMore.answering (Some (JDict ∅))) 3 Sample.client
            QUERY None 500 initial_state =
            (Some (Raise (KeyError "data")), st')).
Proof.
  split.
  - destruct (run_query_malformed_page (SampleMore.answering None)
                Sample.client QUERY None 500 initial_state 0
                (λ _, []) (λ _, JNull) 3) as (Hdecode & _ & _).
    + intros i rq Hi. lia.
    + lia.
    + destruct Hdecode as (st' & Hrun & _); [by intros rq |].
      by exists st'.
  - destruct (run_query_malformed_page (SampleMore.answering (Some (JDict ∅)))
                Sample.client QUERY None 500 initial_state 0
                (λ _, []) (λ _, JNull) 3) as (_ & Hdata & _).
    + intros i rq Hi. lia.
    + lia.
    + destruct Hdata as (st' & Hrun & _).
      * intros rq. split; [reflexivity |]. by exists ∅.
      * by exists st'.
Defined.

(** The second request of the two-page run. *)
Lemma run_query_request_shape_witness :
  ∃ p,
    new_posts initial_state
      (run_query Sample.two_pages 2 Sample.client QUERY None 500
         initial_state).2 !! 1 = Some p ∧
    rq_url p.1 = DEFAULT_URL.
Proof.
  eexists. split; [vm_compute; reflexivity |].
  eapply (run_query_request_shape Sample.two_pages Sample.client QUERY None
            500 initial_state 2).
  - reflexivity.
  - apply list_elem_of_lookup. exists 1. vm_compute; reflexivity.
Defined.

(** The two requests of the two-page run: no cursor, then ["c1"]. *)
Lemma run_query_threads_cursors_witness :
  ∃ p p',
    new_posts initial_state
      (run_query Sample.two_pages 2 Sample.client QUERY None 500
         initial_state).2 = [p; p'] ∧
    after_of p.1 = Some JNull ∧
    ∃ c', Py.truthy c' = true ∧ after_of p'.1 = Some c'.
Proof.
  destruct (run_query_threads_cursors Sample.two_pages Sample.client QUERY
              None 500 initial_state 2 eq_refl) as [Hfirst Hnext].
  eexists _, _. split; [vm_compute; reflexivity |].
  split.
  - apply Hfirst. vm_compute; reflexivity.
  - edestruct (Hnext 0) as (body & c' & _ & _ & _ & Hc' & Hafter);
      [vm_compute; reflexivity | vm_compute; reflexivity |].
    exists c'. split; [exact Hc' | exact Hafter].
Defined.

(** A forged header is answered 401; a header outside ASCII makes the
    comparison raise. *)
Lemma verify_signature_decides_witness :
  (verify_signature Sample.two_pages SampleMore.forged_delivery
     initial_state).1 =
    Some (Raise (HTTPException 401 "Invalid signature")) ∧
  (verify_signature Sample.two_pages SampleMore.non_ascii_delivery
     initial_state).1 =
    Some (Raise (TypeError
      "comparing strings with non-ASCII characters is not supported")).
Proof.
  split.
  - destruct (verify_signature_decides Sample.two_pages
                SampleMore.forged_delivery initial_state)
      as (_ & _ & _ & Hcases & _).
    apply (Hcases "0000" "secret" "5f3c");
      first [discriminate | vm_compute; reflexivity].
  - destruct (verify_signature_decides Sample.two_pages
                SampleMore.non_ascii_delivery initial_state)
      as (_ & _ & _ & Hcases & _).
    apply (Hcases (String (ascii_of_nat 195) (String (ascii_of_nat 132) ""))
             "secret" "5f3c");
      first [discriminate | vm_compute; reflexivity].
Defined.

(** A forged signature: 401 and an untouched state. *)
Lemma unverified_delivery_has_no_effect_witness :
  webhook_handler Sample.two_pages 5 SampleMore.forged_delivery initial_state
  = (Some (Raise (HTTPException 401 "Invalid signature")), initial_state).
Proof.
  apply unverified_delivery_has_no_effect. vm_compute; reflexivity.
Defined.

(** The completed sample delivery makes requests, so it was accepted. *)
Lemma effects_only_for_accepted_delivery_witness :
  ∃ payload data tok,
    accepted Sample.two_pages (Sample.delivery "job.run.completed")
      payload data tok.
Proof.
  apply (effects_only_for_accepted_delivery Sample.two_pages 5
           (Sample.delivery "job.run.completed") initial_state).
  left. vm_compute. discriminate.
Defined.

(** The completed sample delivery, end to end. *)
Lemma delivery_dispatches_one_log_per_node_witness :
  ∃ st3,
    webhook_handler Sample.two_pages 5 (Sample.delivery "job.run.completed")
      initial_state =
    (Some (Ok (JDict (<["status" := JStr "success"]> ∅))), st3).
Proof.
  edestruct (delivery_dispatches_one_log_per_node Sample.two_pages 5
               (Sample.delivery "job.run.completed")
               (Sample.payload "job.run.completed") Sample.run_data
               "dbtc_token" initial_state)
    as (st3 & Hrun & _).
  - accepted_delivery.
  - vm_compute; reflexivity.
  - vm_compute; reflexivity.
  - vm_compute; reflexivity.
  - intros i b. reflexivity.
  - exists st3. exact Hrun.
Defined.

(** A run that none of the fetched nodes belongs to. *)
Lemma delivery_without_matches_succeeds_witness :
  ∃ st2,
    webhook_handler Sample.two_pages 5 (SampleMore.delivery_for (JStr "77"))
      initial_state =
    (Some (Ok (JDict (<["status" := JStr "success"]> ∅))), st2) ∧
    submits_of (trace st2) = [].
Proof.
  eexists. split.
  - eapply (delivery_without_matches_succeeds Sample.two_pages 5
              (SampleMore.delivery_for (JStr "77"))
              (<["data" := JDict (<["runId" := JStr "77"]> Sample.run_data)]>
                 (Sample.payload "job.run.completed"))
              (<["runId" := JStr "77"]> Sample.run_data) "dbtc_token"
              initial_state).
    + accepted_delivery.
    + vm_compute; reflexivity.
    + vm_compute; reflexivity.
    + vm_compute; reflexivity.
  - vm_compute; reflexivity.
Defined.

(** A run id that is no number: raised once both pages are in. *)
Lemma late_errors_follow_the_fetch_witness :
  ∃ st2,
    webhook_handler Sample.two_pages 5 (SampleMore.delivery_for (JStr "n/a"))
      initial_state =
    (Some (Raise (ValueError
       "invalid literal for int() with base 10: 'n/a'")), st2) ∧
    length (posts_of (trace st2)) = 2.
Proof.
  edestruct (late_errors_follow_the_fetch Sample.two_pages 5
               (SampleMore.delivery_for (JStr "n/a"))
               (<["data" := JDict (<["runId" := JStr "n/a"]> Sample.run_data)]>
                  (Sample.payload "job.run.completed"))
               (<["runId" := JStr "n/a"]> Sample.run_data) "dbtc_token"
               initial_state) as [Hint _].
  - accepted_delivery.
  - vm_compute; reflexivity.
  - eexists. split.
    + apply Hint. vm_compute; reflexivity.
    + vm_compute; reflexivity.
Defined.

(** The ingestion client refuses the only batch. *)
Lemma failed_submission_stops_dispatch_witness :
  ∃ st3,
    webhook_handler SampleMore.ingestion_down 5
      (Sample.delivery "job.run.completed") initial_state =
    (Some (Raise (ApiException 500)), st3).
Proof.
  edestruct (failed_submission_stops_dispatch SampleMore.ingestion_down 5
               (Sample.delivery "job.run.completed")
               (Sample.payload "job.run.completed") Sample.run_data
               "dbtc_token" initial_state)
    with (sent := @nil (list HTTPLogItem)) (err := ApiException 500)
    as (st3 & Hrun & _).
  - accepted_delivery.
  - vm_compute; reflexivity.
  - vm_compute; reflexivity.
  - vm_compute; reflexivity.
  - vm_compute; reflexivity.
  - intros i b Hb. discriminate Hb.
  - reflexivity.
  - exists st3. exact Hrun.
Defined.

(** The first request of the completed sample delivery. *)
Lemma handler_requests_all_node_types_witness :
  ∃ p,
    new_posts initial_state
      (webhook_handler Sample.two_pages 5 (Sample.delivery "job.run.completed")
         initial_state).2 !! 0 = Some p ∧
    rq_url p.1 = DEFAULT_URL.
Proof.
  eexists. split; [vm_compute; reflexivity |].
  eapply (handler_requests_all_node_types Sample.two_pages 5
            (Sample.delivery "job.run.completed")
            (Sample.payload "job.run.completed") Sample.run_data "dbtc_token"
            initial_state).
  - accepted_delivery.
  - apply list_elem_of_lookup. exists 0. vm_compute; reflexivity.
Defined.
